(** * A shallow embedding of the codux HTTP client ([src/codux/main.py])

    The client is a thin layer over the [requests] library.  What the library
    does on the client's behalf (parsing a body with [Response.json], the
    text of its exceptions, the case folding of [CaseInsensitiveDict], the
    network round trip) is taken as parameters of the section below; the
    control flow of [main.py] and of the parts of [requests] it relies on
    ([raise_for_status], [merge_setting], the exception hierarchy) is written
    out.  The exception hierarchy is the one of requests >= 2.27, where
    [Response.json] raises [requests.exceptions.JSONDecodeError], a subclass of
    both [RequestException] and [json.JSONDecodeError]. *)

From Stdlib Require Import ZArith List String Bool Ascii.
From stdpp Require Import base gmap strings pretty list.
Import ListNotations.
Open Scope string_scope.
Set Warnings "-register-all".

(** ** JSON values, as returned by [json.loads] *)

(** Numbers are integers here (the service's limits are milliseconds and
    bytes).  A JSON object is the list of its members in document order; as a
    Python dict, a repeated key keeps the value of its last occurrence. *)
Inductive json : Type :=
| JNull
| JBool (b : bool)
| JNum (z : Z)
| JString (s : string)
| JArray (l : list json)
| JObject (l : list (string * json)).

(** [d[k]] / [d.get(k)] on a dict built by [json.loads]: the last binding. *)
Fixpoint dict_get (k : string) (l : list (string * json)) : option json :=
  match l with
  | [] => None
  | (k', v) :: t =>
      match dict_get k t with
      | Some w => Some w
      | None => if String.eqb k k' then Some v else None
      end
  end.

(** [d[k] = v] on a Python dict: replace in place, or append a new key. *)
Fixpoint dict_set (k : string) (v : json) (l : list (string * json))
  : list (string * json) :=
  match l with
  | [] => [(k, v)]
  | (k', v') :: t =>
      if String.eqb k k' then (k, v) :: t else (k', v') :: dict_set k v t
  end.

(** Keys of a dict, in insertion order (first occurrence). *)
Fixpoint dict_keys_aux (seen : list string) (l : list (string * json))
  : list string :=
  match l with
  | [] => []
  | (k, _) :: t =>
      if existsb (String.eqb k) seen then dict_keys_aux seen t
      else k :: dict_keys_aux (k :: seen) t
  end.

Definition dict_keys (l : list (string * json)) : list string :=
  dict_keys_aux [] l.

(** Substring test of Python's [p in s] on strings. *)
Fixpoint is_substring (p s : string) : bool :=
  String.prefix p s ||
  match s with
  | EmptyString => false
  | String _ s' => is_substring p s'
  end.

(** ** Exceptions and the result of a Python computation *)

(** A response, as [requests] hands it over. *)
Record response : Type := {
  status_code : Z;
  reason : string;
  resp_url : string;
  content : string
}.

(** What [Session.request] produces: a response, or a network-level failure
    (connection refused, timeout, DNS failure), all [RequestException]s. *)
Inductive outcome : Type :=
| Response (r : response)
| NetworkError (desc : string).

Inductive exn : Type :=
| PackageAlreadyInstalledError (msg : json)
| PackageNotFoundError (msg : json)
| CodeExecutionError (msg : string)
(** [requests.exceptions.HTTPError], with [str(e)] and [e.response] *)
| HTTPError (desc : string) (r : response)
(** [requests.exceptions.JSONDecodeError] *)
| RequestsJSONDecodeError (desc : string)
(** the other [requests.exceptions.RequestException]s *)
| ConnectionError (desc : string)
| TypeError
| KeyError
| AttributeError.

Inductive res (A : Type) : Type :=
| Ok (a : A)
| Err (e : exn).
Arguments Ok {A} a.
Arguments Err {A} e.

Definition res_bind {A B} (c : res A) (k : A -> res B) : res B :=
  match c with
  | Ok a => k a
  | Err e => Err e
  end.

Notation "'let*' x := c 'in' k" := (res_bind c (fun x => k))
  (at level 200, x name, c at level 100, k at level 200).

(** [except requests.exceptions.RequestException] *)
Definition is_request_exception (e : exn) : bool :=
  match e with
  | HTTPError _ _ | RequestsJSONDecodeError _ | ConnectionError _ => true
  | _ => false
  end.

(** ** Python operators on JSON values *)

(** [key in v] *)
Definition py_contains (key : string) (v : json) : res bool :=
  match v with
  | JObject l => Ok (if dict_get key l then true else false)
  | JArray l =>
      Ok (existsb (fun e => match e with
                            | JString s => String.eqb s key
                            | _ => false
                            end) l)
  | JString s => Ok (is_substring key s)
  | _ => Err TypeError
  end.

(** [v[key]] with a string key *)
Definition py_getitem (v : json) (key : string) : res json :=
  match v with
  | JObject l => match dict_get key l with
                 | Some w => Ok w
                 | None => Err KeyError
                 end
  | _ => Err TypeError
  end.

(** [v.get(key, dflt)]; [v.get(key)] is [dflt = None], i.e. [JNull]. *)
Definition py_get (v : json) (key : string) (dflt : json) : res json :=
  match v with
  | JObject l => Ok (default dflt (dict_get key l))
  | _ => Err AttributeError
  end.

(** Iteration [for x in v] *)
Definition py_iter (v : json) : res (list json) :=
  match v with
  | JArray l => Ok l
  | JObject l => Ok (map JString (dict_keys l))
  | JString s => Ok (map (fun c => JString (String c EmptyString))
                         (list_ascii_of_string s))
  | _ => Err TypeError
  end.

Fixpoint res_mapM {A B} (f : A -> res B) (l : list A) : res (list B) :=
  match l with
  | [] => Ok []
  | x :: t => let* y := f x in let* ys := res_mapM f t in Ok (y :: ys)
  end.

(** [endpoint.lstrip('/')] *)
Fixpoint lstrip_slash (s : string) : string :=
  match s with
  | String "/"%char s' => lstrip_slash s'
  | _ => s
  end.

(** [Response.raise_for_status]: the text of the [HTTPError] it raises. *)
Definition http_error_msg (r : response) : option string :=
  let code := status_code r in
  if (400 <=? code)%Z && (code <? 500)%Z then
    Some (pretty code +:+ " Client Error: " +:+ reason r +:+ " for url: " +:+ resp_url r)
  else if (500 <=? code)%Z && (code <? 600)%Z then
    Some (pretty code +:+ " Server Error: " +:+ reason r +:+ " for url: " +:+ resp_url r)
  else None.

(** [s.rstrip('/')] *)
Fixpoint rstrip_slash (s : string) : string :=
  match s with
  | EmptyString => EmptyString
  | String c s' =>
      let r := rstrip_slash s' in
      if Ascii.eqb c "/"%char && String.eqb r EmptyString then EmptyString else String c r
  end.

(** Drop the first [n] characters. *)
Fixpoint str_drop (n : nat) (s : string) : string :=
  match n, s with
  | O, _ => s
  | S n', String _ s' => str_drop n' s'
  | S _, EmptyString => EmptyString
  end.

(** [s.split(sep, 1)] for a non-empty [sep]: the parts before and after the
    first occurrence, or [None] when [sep] does not occur (a one-element
    list). *)
Fixpoint split_once (sep s : string) : option (string * string) :=
  if String.prefix sep s then Some (EmptyString, str_drop (String.length sep) s)
  else
    match s with
    | EmptyString => None
    | String c s' =>
        match split_once sep s' with
        | Some (a, b) => Some (String c a, b)
        | None => None
        end
    end.

(** A string made of ['/'] only. *)
Fixpoint all_slashes (s : string) : bool :=
  match s with
  | EmptyString => true
  | String ch s' => Ascii.eqb ch "/"%char && all_slashes s'
  end.

(** ** Header dictionaries: [requests.structures.CaseInsensitiveDict]

    The items in insertion order, with the key as last written.  A key is
    looked up through its folded form ([key.lower()]); writing an existing key
    replaces its entry in place, as the underlying [OrderedDict] does. *)
Definition hdict := list (string * string).

(** The client's objects that are mutated in place: header dictionaries,
    addressed by location. *)
Abbreviation heap := (gmap positive hdict).

Record client : Type := {
  base_url : string;
  timeout : Z;
  session_headers : positive  (** [self.session.headers] *)
}.

(** The result record of [execute_code]; [JNull] is Python's [None]. *)
Record ExecutionResult : Type := {
  install_output : json;
  install_error : json;
  execute_output : json;
  execute_error : json;
  web_app_url : json
}.

Definition ExecutionResult_default : ExecutionResult :=
  {| install_output := JNull; install_error := JNull; execute_output := JNull;
     execute_error := JNull; web_app_url := JNull |}.

(** [@dataclass Runtime]; the fields hold the values that [Runtime] is called with. *)
Record Runtime : Type := {
  language : json;
  version : json;
  runtime : json;          (** default [None] *)
  aliases : json           (** default [[]] *)
}.

(** ** Concrete library behaviour, for running the model on examples *)

(** [str.lower] on ASCII text. *)
Definition ascii_lower (c : ascii) : ascii :=
  let n := nat_of_ascii c in
  if (65 <=? n)%nat && (n <=? 90)%nat then ascii_of_nat (n + 32) else c.

Fixpoint str_lower (s : string) : string :=
  match s with
  | EmptyString => EmptyString
  | String c s' => String (ascii_lower c) (str_lower s')
  end.

Definition newline : string := String "010"%char EmptyString.

Definition quote : string := String "034"%char EmptyString.

Definition q (s : string) : string := quote +:+ s +:+ quote.

(** The body [[{"language": "python", "version": "3.11.0", "aliases": ["py"]}]]. *)
Definition runtimes_body : string :=
  "[{" +:+ q "language" +:+ ": " +:+ q "python" +:+ ", " +:+ q "version" +:+ ": "
  +:+ q "3.11.0" +:+ ", " +:+ q "aliases" +:+ ": [" +:+ q "py" +:+ "]}]".

Definition runtimes_json : json :=
  JArray [JObject [("language", JString "python"); ("version", JString "3.11.0");
                   ("aliases", JArray [JString "py"])]].

(** A [json.loads] that knows the example bodies used below. *)
Definition loads_fixture (body : string) : option json :=
  if String.eqb body runtimes_body then Some runtimes_json
  else if String.eqb body "{}" then Some (JObject [])
  else None.

Definition decode_err_fixture (_ : string) : string :=
  "Expecting value: line 1 column 1 (char 0)".

Definition repr_fixture (_ : json) : string := "<value>".

Definition answer (r : response) : string -> string -> Z -> hdict -> option json -> outcome :=
  fun _ _ _ _ _ => Response r.

Definition demo_client : client :=
  {| base_url := "http://localhost/api/v2"; timeout := 30; session_headers := 1%positive |}.

Definition demo_defaults : hdict :=
  [("User-Agent", "python-requests/2.31.0"); ("Accept", "*/*");
   ("Authorization", "Bearer abc")].

Definition demo_heap : heap := {[1%positive := demo_defaults]}.

Definition demo_call_headers : option (list (string * string)) :=
  Some [("authorization", "Bearer xyz"); ("X-Trace", "1")].

Definition resp_runtimes : response :=
  {| status_code := 200; reason := "OK";
     resp_url := "http://localhost/api/v2/runtimes"; content := runtimes_body |}.

Definition resp_404_html : response :=
  {| status_code := 404; reason := "Not Found";
     resp_url := "http://localhost/api/v2/packages"; content := "<html>Not Found</html>" |}.

Definition resp_500_html : response :=
  {| status_code := 500; reason := "Internal Server Error";
     resp_url := "http://localhost/api/v2/execute";
     content := "<html>Internal Server Error</html>" |}.

Definition resp_300_empty : response :=
  {| status_code := 300; reason := "Multiple Choices";
     resp_url := "http://localhost/api/v2/runtimes"; content := EmptyString |}.

(** The response [{"stages": {"execute": {"stdout": "hi\n"}}}]. *)
Definition execute_only_response : json :=
  JObject [("stages", JObject [("execute", JObject [("stdout", JString ("hi" +:+ newline))])])].

Definition execute_only_result : ExecutionResult :=
  {| install_output := JNull; install_error := JNull;
     execute_output := JString ("hi" +:+ newline); execute_error := JNull;
     web_app_url := JNull |}.

Definition python_entry : list (string * json) :=
  [("language", JString "python"); ("version", JString "3.11.0")].

(** A [json.loads] that decodes every body to the same value. *)
Definition loads_const (j : json) : string -> option json := fun _ => Some j.

Definition resp_404_object : response :=
  {| status_code := 404; reason := "Not Found";
     resp_url := "http://localhost/api/v2/process/42"; content := "{}" |}.

Definition resp_500_object : response :=
  {| status_code := 500; reason := "Internal Server Error";
     resp_url := "http://localhost/api/v2/execute"; content := "{}" |}.

Definition resp_204_empty : response :=
  {| status_code := 204; reason := "No Content";
     resp_url := "http://localhost/api/v2/packages"; content := EmptyString |}.

Definition packages_json : json :=
  JArray [JObject [("language", JString "python"); ("language_version", JString "3.11.0");
                   ("installed", JBool true)]].

Definition resp_packages : response :=
  {| status_code := 200; reason := "OK";
     resp_url := "http://localhost/api/v2/packages"; content := "[...]" |}.

(** An entry with a member that is not a field of [Runtime]. *)
Definition homepage_entry : list (string * json) :=
  [("language", JString "python"); ("version", JString "3.11.0");
   ("homepage", JString "https://www.python.org")].

Definition homepage_body : json := JArray [JObject homepage_entry].

(** [@dataclass Package]; [language] is [pkg_language] here, the name
    [language] being taken by [Runtime]. *)
Record Package : Type := {
  pkg_language : json;
  language_version : json;
  installed : json
}.

Section Client.

(** [str.lower], as used by [CaseInsensitiveDict]. *)
Variable fold : string -> string.
(** [json.loads] as called by [Response.json]: [None] when it raises. *)
Variable json_loads : string -> option json.
(** [str(e)] of the [JSONDecodeError] raised on a given body. *)
Variable decode_err_str : string -> string.
(** [str(v)] of a non-string JSON value, in an f-string. *)
Variable py_repr : json -> string.
(** The network round trip of [Session.request(method, url, timeout=...,
    headers=..., json=...)], given the merged headers. *)
Variable transport : string -> string -> Z -> hdict -> option json -> outcome.

Definition py_str (v : json) : string :=
  match v with
  | JString s => s
  | _ => py_repr v
  end.

Definition key_eqb (k1 k2 : string) : bool := String.eqb (fold k1) (fold k2).

(** [CaseInsensitiveDict.__getitem__] / [get] *)
Fixpoint ci_get (k : string) (d : hdict) : option string :=
  match d with
  | [] => None
  | (k', v) :: t => if key_eqb k' k then Some v else ci_get k t
  end.

(** [CaseInsensitiveDict.__setitem__] *)
Fixpoint ci_set (k v : string) (d : hdict) : hdict :=
  match d with
  | [] => [(k, v)]
  | (k', v') :: t => if key_eqb k' k then (k, v) :: t else (k', v') :: ci_set k v t
  end.

(** [d.update(items)] *)
Definition ci_update (d : hdict) (items : list (string * string)) : hdict :=
  fold_left (fun acc kv => ci_set kv.1 kv.2 acc) items d.

(** [requests.sessions.merge_setting(request_setting, session_setting,
    dict_class=CaseInsensitiveDict)] on two header mappings ([str] values, so
    no [None] value to delete). *)
Definition merge_setting (request_setting : option hdict) (session_setting : hdict)
  : hdict :=
  match request_setting with
  | None => session_setting
  | Some rs => ci_update (ci_update [] session_setting) rs
  end.

(** [Response.json()] *)
Definition response_json (r : response) : res json :=
  match json_loads (content r) with
  | Some j => Ok j
  | None => Err (RequestsJSONDecodeError (decode_err_str (content r)))
  end.

(** [Response.raise_for_status()] *)
Definition raise_for_status (r : response) : res unit :=
  match http_error_msg r with
  | Some d => Err (HTTPError d r)
  | None => Ok tt
  end.

(** The body of the [try] block of [_make_request], after the request. *)
Definition make_request_try (endpoint : string) (o : outcome) : res json :=
  match o with
  | NetworkError d => Err (ConnectionError d)
  | Response r =>
      if (status_code r =? 404)%Z then
        let* j := response_json r in
        let* m := py_get j "message" (JString "Package not found") in
        Err (PackageNotFoundError m)
      else if (status_code r =? 409)%Z && String.eqb endpoint "packages" then
        let* j := response_json r in
        let* m := py_get j "message" (JString "Package already installed") in
        Err (PackageAlreadyInstalledError m)
      else
        let* _ := raise_for_status r in
        if String.eqb (content r) EmptyString then Ok (JObject []) else response_json r
  end.

(** The [except requests.exceptions.RequestException as e] handler. *)
Definition make_request_handler (e : exn) : res json :=
  match e with
  | HTTPError d r =>
      match (let* j := response_json r in py_get j "message" (JString d)) with
      | Ok m => Err (CodeExecutionError ("API request failed: " +:+ py_str m))
      (** [except json.JSONDecodeError], which requests' error subclasses *)
      | Err (RequestsJSONDecodeError _) =>
          Err (CodeExecutionError ("API request failed: " +:+ d))
      | Err e' => Err e'
      end
  | RequestsJSONDecodeError d | ConnectionError d =>
      Err (CodeExecutionError ("API request failed: " +:+ d))
  | _ => Err e
  end.

(** The error classification of [_make_request], for one outcome. *)
Definition classify (endpoint : string) (o : outcome) : res json :=
  match make_request_try endpoint o with
  | Ok j => Ok j
  | Err e => if is_request_exception e then make_request_handler e else Err e
  end.

(** [if headers:] on an [Optional[Dict[str, str]]] *)
Definition truthy_headers (headers : option (list (string * string))) : bool :=
  match headers with
  | Some (_ :: _) => true
  | _ => false
  end.

(** The header merge of [_make_request]: the [kwargs['headers']] it sets
    (a fresh copy of the session headers, updated), with the heap after. *)
Definition request_headers (c : client) (h : heap)
    (headers : option (list (string * string))) : option hdict * heap :=
  if truthy_headers headers then
    let l := fresh (dom h) in
    let copy := default [] (h !! session_headers c) in
    let h' := <[l := copy]> h in
    let h'' := <[l := ci_update (default [] (h' !! l)) (default [] headers)]> h' in
    (h'' !! l, h'')
  else (None, h).

(** [CodeExecutionClient._make_request(method, endpoint, headers, json=body)],
    returning the heap after the call. *)
Definition make_request (c : client) (h : heap) (method endpoint : string)
    (headers : option (list (string * string))) (body : option json)
    : res json * heap :=
  let url := base_url c +:+ "/" +:+ lstrip_slash endpoint in
  let '(kw, h1) := request_headers c h headers in
  let sent := merge_setting kw (default [] (h1 !! session_headers c)) in
  (classify endpoint (transport method url (timeout c) sent body), h1).

(** ** The operations *)

(** [list_runtimes]: the comprehension over the response applied
    to the decoded body.  Calling [Runtime] with an entry as keyword arguments needs a mapping,, accepts only the
    four field names as keywords and needs [language] and [version]. *)
Definition runtime_of_entry (e : json) : res Runtime :=
  match e with
  | JObject l =>
      if forallb (fun k => bool_decide (k ∈ ["language"; "version"; "runtime"; "aliases"]))
           (dict_keys l)
      then
        match dict_get "language" l, dict_get "version" l with
        | Some lang, Some ver =>
            Ok {| language := lang; version := ver;
                  runtime := default JNull (dict_get "runtime" l);
                  aliases := default (JArray []) (dict_get "aliases" l) |}
        | _, _ => Err TypeError
        end
      else Err TypeError
  | _ => Err TypeError
  end.

Definition runtimes_of_response (response : json) : res (list Runtime) :=
  let* entries := py_iter response in
  res_mapM runtime_of_entry entries.

Definition list_runtimes (c : client) (h : heap)
    (headers : option (list (string * string))) : res (list Runtime) * heap :=
  let '(r, h') := make_request c h "GET" "/runtimes" headers None in
  (let* response := r in runtimes_of_response response, h').

Definition install_package (c : client) (h : heap) (language version : string)
    (headers : option (list (string * string))) : res bool * heap :=
  let payload := JObject [("language", JString language); ("version", JString version)] in
  let '(r, h') := make_request c h "POST" "/packages" headers (Some payload) in
  (match r with
   | Ok _ => Ok true
   | Err (PackageAlreadyInstalledError _) => Ok false
   | Err e => Err e
   end, h').

(** The keyword arguments of [execute_code] after [code, language,
    version]; [None] is an argument the caller left out (for the optional
    ones, the same as passing [None]). *)
Record exec_kwargs : Type := {
  kw_name : option string;
  kw_encoding : option string;
  kw_dependencies : option (list string);
  kw_args : option (list string);
  kw_stdin : option string;
  kw_compile_memory_limit : option Z;
  kw_run_memory_limit : option Z;
  kw_run_timeout : option Z;
  kw_compile_timeout : option Z;
  kw_run_cpu_time : option Z;
  kw_compile_cpu_time : option Z;
  kw_headers : option (list (string * string))
}.

Definition no_kwargs : exec_kwargs :=
  {| kw_name := None; kw_encoding := None; kw_dependencies := None;
     kw_args := None; kw_stdin := None; kw_compile_memory_limit := None;
     kw_run_memory_limit := None; kw_run_timeout := None;
     kw_compile_timeout := None; kw_run_cpu_time := None;
     kw_compile_cpu_time := None; kw_headers := None |}.

(** [if x is not None: payload[k] = x] *)
Definition set_if_given (k : string) (x : option json) (payload : list (string * json))
  : list (string * json) :=
  match x with
  | Some v => dict_set k v payload
  | None => payload
  end.

Definition json_strings (l : list string) : json := JArray (map JString l).

(** The request payload built by [execute_code]. *)
Definition execute_payload (code language version : string) (kw : exec_kwargs)
  : list (string * json) :=
  let payload :=
    [("language", JString language);
     ("version", JString version);
     ("files", JArray [JObject [("name", JString (default "main" (kw_name kw)));
                                ("content", JString code);
                                ("encoding", JString (default "utf8" (kw_encoding kw)))]])] in
  let payload := set_if_given "dependencies" (json_strings <$> kw_dependencies kw) payload in
  let payload := set_if_given "args" (json_strings <$> kw_args kw) payload in
  let payload := set_if_given "stdin" (JString <$> kw_stdin kw) payload in
  let payload := set_if_given "compile_memory_limit" (JNum <$> kw_compile_memory_limit kw) payload in
  let payload := set_if_given "run_memory_limit" (JNum <$> kw_run_memory_limit kw) payload in
  let payload := set_if_given "run_timeout" (JNum <$> kw_run_timeout kw) payload in
  let payload := set_if_given "compile_timeout" (JNum <$> kw_compile_timeout kw) payload in
  let payload := set_if_given "run_cpu_time" (JNum <$> kw_run_cpu_time kw) payload in
  let payload := set_if_given "compile_cpu_time" (JNum <$> kw_compile_cpu_time kw) payload in
  payload.

(** [result.X_output = stages[stage].get("stdout")] and the [stderr] twin. *)
Definition parse_stage (stages : json) (stage : string) : res (option (json * json)) :=
  let* present := py_contains stage stages in
  if present then
    let* st := py_getitem stages stage in
    let* out := py_get st "stdout" JNull in
    let* err := py_get st "stderr" JNull in
    Ok (Some (out, err))
  else Ok None.

(** The result parsing at the end of [execute_code]. *)
Definition parse_result (response : json) : res ExecutionResult :=
  let* has_stages := py_contains "stages" response in
  let* result :=
    if has_stages then
      let* stages := py_getitem response "stages" in
      let* inst := parse_stage stages "install" in
      let '(io, ie) := default (JNull, JNull) inst in
      let* exe := parse_stage stages "execute" in
      let '(eo, ee) := default (JNull, JNull) exe in
      Ok {| install_output := io; install_error := ie; execute_output := eo;
            execute_error := ee; web_app_url := JNull |}
    else Ok ExecutionResult_default in
  let* has_url := py_contains "webAppUrl" response in
  if has_url then
    let* u := py_getitem response "webAppUrl" in
    Ok {| install_output := install_output result; install_error := install_error result;
          execute_output := execute_output result; execute_error := execute_error result;
          web_app_url := u |}
  else Ok result.

Definition execute_code (c : client) (h : heap) (code language version : string)
    (kw : exec_kwargs) : res ExecutionResult * heap :=
  let payload := execute_payload code language version kw in
  let '(r, h') := make_request c h "POST" "/execute" (kw_headers kw) (Some (JObject payload)) in
  (let* response := r in parse_result response, h').

(** [list_packages]: the comprehension over the response, calling
    [Package] with each entry as keyword arguments.  [Package] has no
    defaults: it needs exactly [language], [language_version] and
    [installed]. *)
Definition package_of_entry (e : json) : res Package :=
  match e with
  | JObject l =>
      if forallb (fun k => bool_decide (k ∈ ["language"; "language_version"; "installed"]))
           (dict_keys l)
      then
        match dict_get "language" l, dict_get "language_version" l, dict_get "installed" l with
        | Some lang, Some ver, Some inst =>
            Ok {| pkg_language := lang; language_version := ver; installed := inst |}
        | _, _, _ => Err TypeError
        end
      else Err TypeError
  | _ => Err TypeError
  end.

Definition packages_of_response (response : json) : res (list Package) :=
  let* entries := py_iter response in
  res_mapM package_of_entry entries.

Definition list_packages (c : client) (h : heap)
    (headers : option (list (string * string))) : res (list Package) * heap :=
  let '(r, h') := make_request c h "GET" "/packages" headers None in
  (let* response := r in packages_of_response response, h').

Definition uninstall_package (c : client) (h : heap) (language version : string)
    (headers : option (list (string * string))) : res unit * heap :=
  let payload := JObject [("language", JString language); ("version", JString version)] in
  let '(r, h') := make_request c h "DELETE" "/packages" headers (Some payload) in
  (let* _ := r in Ok tt, h').

Definition terminate_process (c : client) (h : heap) (process_id : string)
    (headers : option (list (string * string))) : res unit * heap :=
  let '(r, h') := make_request c h "DELETE" ("/process/" +:+ process_id) headers None in
  (let* _ := r in Ok tt, h').

(** The URL [connect_websocket] opens:
    [f"ws://{self.base_url.split('://', 1)[1]}/connect"]; [None] is the
    [IndexError] of a base URL without ["://"]. *)
Definition websocket_url (c : client) : option string :=
  match split_once "://" (base_url c) with
  | Some (_, rest) => Some ("ws://" +:+ rest +:+ "/connect")
  | None => None
  end.

(** [requests.utils.default_headers()], the headers of a new [Session]; the
    user agent and the accepted encodings depend on the installed versions. *)
Definition requests_default_headers (user_agent accept_encoding : string) : hdict :=
  ci_update [] [("User-Agent", user_agent); ("Accept-Encoding", accept_encoding);
                ("Accept", "*/*"); ("Connection", "keep-alive")].

(** [CodeExecutionClient.__init__(base_url, timeout, headers)]: a new session
    whose header dictionary is allocated, then updated in place. *)
Definition client_init (user_agent accept_encoding : string) (h : heap)
    (base : string) (tmo : Z) (headers : option (list (string * string)))
    : client * heap :=
  let l := fresh (dom h) in
  let h1 := <[l := requests_default_headers user_agent accept_encoding]> h in
  let h2 := if truthy_headers headers
            then <[l := ci_update (default [] (h1 !! l)) (default [] headers)]> h1
            else h1 in
  ({| base_url := rstrip_slash base; timeout := tmo; session_headers := l |}, h2).

(** ** Properties *)

(** *** Header dictionaries *)

(** The value the per-call mapping gives to a key, in [update] order: the
    last of its items whose key folds to the same form. *)
Fixpoint ci_last (k : string) (items : list (string * string)) : option string :=
  match items with
  | [] => None
  | (k', v) :: t =>
      match ci_last k t with
      | Some w => Some w
      | None => if key_eqb k' k then Some v else None
      end
  end.

(** A [CaseInsensitiveDict] holds one entry per folded key. *)
Definition ci_wf (d : hdict) : Prop := NoDup (map (fun kv => fold kv.1) d).

Lemma ci_get_set k k' v d :
  ci_get k (ci_set k' v d) = if key_eqb k' k then Some v else ci_get k d.
Proof.
  induction d as [|[k0 v0] t IH]; simpl.
  - by destruct (key_eqb k' k).
  - unfold key_eqb in *.
    destruct (String.eqb_spec (fold k0) (fold k')) as [E0|E0]; simpl;
      unfold key_eqb.
    + destruct (String.eqb_spec (fold k') (fold k)) as [E1|E1];
      destruct (String.eqb_spec (fold k0) (fold k)); congruence.
    + destruct (String.eqb_spec (fold k0) (fold k)) as [E1|E1]; [|exact IH].
      destruct (String.eqb_spec (fold k') (fold k)); congruence.
Qed.

Lemma ci_get_update k d items :
  ci_get k (ci_update d items) =
  match ci_last k items with Some v => Some v | None => ci_get k d end.
Proof.
  revert d. induction items as [|[k' v] t IH]; intros d; simpl; [done|].
  unfold ci_update in *. simpl. rewrite IH, ci_get_set.
  destruct (ci_last k t); [done|]. by destruct (key_eqb k' k).
Qed.

Lemma ci_get_some_fold k d v :
  ci_get k d = Some v -> fold k ∈ map (fun kv => fold kv.1) d.
Proof.
  induction d as [|[k0 v0] t IH]; simpl; [done|].
  unfold key_eqb. destruct (String.eqb_spec (fold k0) (fold k)) as [E|E].
  - intros _. rewrite E. constructor.
  - intros H. constructor. by apply IH.
Qed.

Lemma ci_last_wf k d : ci_wf d -> ci_last k d = ci_get k d.
Proof.
  unfold ci_wf. induction d as [|[k0 v0] t IH]; simpl; [done|].
  intros Hnd. apply NoDup_cons in Hnd as [Hn Hnd].
  rewrite IH by done. unfold key_eqb.
  destruct (String.eqb_spec (fold k0) (fold k)) as [E|E].
  - destruct (ci_get k t) eqn:G; [|done].
    exfalso. apply Hn. rewrite E. by eapply ci_get_some_fold.
  - by destruct (ci_get k t).
Qed.

Lemma ci_set_folds k v d :
  map (fun kv => fold kv.1) (ci_set k v d) =
  if existsb (fun kv => key_eqb kv.1 k) d then map (fun kv => fold kv.1) d
  else (map (fun kv => fold kv.1) d ++ [fold k])%list.
Proof.
  induction d as [|[k0 v0] t IH]; simpl; [done|].
  unfold key_eqb in *.
  destruct (String.eqb_spec (fold k0) (fold k)) as [E|E]; simpl.
  - by rewrite E.
  - rewrite IH. by destruct (existsb _ t).
Qed.

Lemma existsb_key_fold k d :
  existsb (fun kv : string * string => key_eqb kv.1 k) d = false ->
  fold k ∉ map (fun kv => fold kv.1) d.
Proof.
  induction d as [|[k0 v0] t IH]; simpl; [intros _; apply not_elem_of_nil|].
  unfold key_eqb in *. destruct (String.eqb_spec (fold k0) (fold k)) as [E|E];
    simpl; [done|].
  intros H Hin. apply elem_of_cons in Hin as [Hin|Hin]; [congruence|].
  by apply (IH H).
Qed.

Lemma ci_set_wf k v d : ci_wf d -> ci_wf (ci_set k v d).
Proof.
  unfold ci_wf. intros Hnd. rewrite ci_set_folds.
  destruct (existsb _ d) eqn:Ex; [done|].
  apply NoDup_app. split; [done|]. split.
  - intros x Hx Hx'. apply list_elem_of_singleton in Hx'. subst x.
    by apply (existsb_key_fold k d Ex).
  - apply NoDup_singleton.
Qed.

Lemma ci_update_wf d items : ci_wf d -> ci_wf (ci_update d items).
Proof.
  revert d. induction items as [|[k v] t IH]; intros d Hd; [done|].
  apply IH. by apply ci_set_wf.
Qed.

Lemma ci_update_nil_wf items : ci_wf (ci_update [] items).
Proof. apply ci_update_wf. constructor. Qed.

(** The session headers are untouched by the header merge. *)
Lemma request_headers_session c h headers d :
  h !! session_headers c = Some d ->
  (request_headers c h headers).2 !! session_headers c = Some d
  /\ (request_headers c h headers).1 =
     (if truthy_headers headers then Some (ci_update d (default [] headers)) else None).
Proof.
  intros Hs. unfold request_headers.
  destruct (truthy_headers headers); simpl; [|done].
  assert (Hne : fresh (dom h) <> session_headers c).
  { intros E. apply (is_fresh (dom h)). rewrite E. apply elem_of_dom. by eexists. }
  split.
  - by rewrite !lookup_insert_ne.
  - rewrite !lookup_insert_eq. simpl. unfold hdict in *. by rewrite Hs.
Qed.

(** *** Claims about the transport *)

(** C7: the headers [_make_request] hands to the session are the session's
    default headers overlaid with the per-call headers: a key set in the call
    takes the per-call value, any other key keeps its default value, and no
    other key is added. *)
Theorem make_request_sends_merged_headers c h method endpoint headers body d
    (Hs : h !! session_headers c = Some d) (Hwf : ci_wf d) :
  exists sent h',
    make_request c h method endpoint headers body =
      (classify endpoint
         (transport method (base_url c +:+ "/" +:+ lstrip_slash endpoint) (timeout c) sent body),
       h')
    /\ forall k, ci_get k sent =
       match ci_last k (default [] headers) with
       | Some v => Some v
       | None => ci_get k d
       end.
Proof.
  unfold make_request.
  destruct (request_headers_session c h headers d Hs) as [H1 H2].
  destruct (request_headers c h headers) as [kw h1]. simpl in *.
  exists (merge_setting kw (default [] (h1 !! session_headers c))), h1.
  split; [reflexivity|]. intros k. unfold hdict in *. rewrite H1. simpl. subst kw.
  destruct (truthy_headers headers) eqn:T; simpl.
  - rewrite ci_get_update, ci_last_wf by (by apply ci_update_wf).
    rewrite ci_get_update.
    destruct (ci_last k (default [] headers)); [done|].
    rewrite ci_get_update, ci_last_wf by done. simpl.
    by destruct (ci_get k d).
  - by destruct headers as [[|]|].
Qed.

(** C9: a request, with or without per-call headers, leaves the client's
    default header dictionary as it was: the overlay is written to a copy. *)
Theorem make_request_keeps_session_headers c h method endpoint headers body d
    (Hs : h !! session_headers c = Some d) :
  (make_request c h method endpoint headers body).2 !! session_headers c = Some d.
Proof.
  unfold make_request.
  destruct (request_headers_session c h headers d Hs) as [H1 _].
  by destruct (request_headers c h headers).
Qed.

(** *** The error classification *)

Lemma make_request_handler_not_already e m :
  is_request_exception e = true ->
  make_request_handler e <> Err (PackageAlreadyInstalledError m).
Proof.
  destruct e as [| | |d r| | | | |]; simpl; try discriminate; intros _.
  unfold response_json. destruct (json_loads (content r)) as [j|]; [destruct j|];
    simpl; discriminate.
Qed.

(** [PackageAlreadyInstalledError] comes only from the endpoint spelt
    exactly ["packages"]. *)
Lemma classify_already_installed endpoint o m :
  classify endpoint o = Err (PackageAlreadyInstalledError m) -> endpoint = "packages".
Proof.
  unfold classify. destruct (make_request_try endpoint o) as [j|e] eqn:E; [discriminate|].
  destruct (is_request_exception e) eqn:R.
  { intros H. by apply make_request_handler_not_already in H. }
  intros [= ->]. revert E. unfold make_request_try.
  destruct o as [r|d]; [|discriminate].
  destruct (status_code r =? 404)%Z.
  { unfold response_json. destruct (json_loads (content r)) as [j|]; [destruct j|];
      simpl; discriminate. }
  destruct ((status_code r =? 409)%Z && String.eqb endpoint "packages") eqn:C.
  { intros _. apply andb_true_iff in C as [_ C]. by apply String.eqb_eq. }
  unfold raise_for_status. destruct (http_error_msg r); simpl; [discriminate|].
  destruct (String.eqb (content r) EmptyString); [discriminate|].
  unfold response_json. destruct (json_loads (content r)); discriminate.
Qed.

(** C1 (the code as written): [install_package] never returns [False].  It
    requests the endpoint ["/packages"], while [_make_request] raises
    [PackageAlreadyInstalledError] only for the endpoint ["packages"]; a 409
    answer therefore goes through [raise_for_status] and is raised as a
    [CodeExecutionError]. *)
Theorem install_package_never_false c h language version headers :
  (install_package c h language version headers).1 <> Ok false.
Proof.
  unfold install_package.
  destruct (make_request c h "POST" "/packages" headers _) as [r h'] eqn:E. simpl.
  destruct r as [a|e]; [discriminate|].
  destruct e; try discriminate.
  intros _. unfold make_request in E.
  destruct (request_headers c h headers) as [kw h1]. injection E as E _.
  apply classify_already_installed in E. discriminate.
Qed.

(** C4 (the code as written): a 404 whose body is not JSON is not classified
    as [PackageNotFoundError]: [response.json()] raises requests'
    [JSONDecodeError], a [RequestException] that is not an [HTTPError], and the
    handler raises a [CodeExecutionError] with the decoding error's text. *)
Theorem classify_404_undecodable_body endpoint r
    (H404 : status_code r = 404%Z) (Hbody : json_loads (content r) = None) :
  classify endpoint (Response r) =
  Err (CodeExecutionError ("API request failed: " +:+ decode_err_str (content r))).
Proof.
  unfold classify, make_request_try. rewrite H404. simpl.
  unfold response_json. rewrite Hbody. reflexivity.
Qed.

Lemma append_string_not_empty s1 ch s2 : s1 +:+ String ch s2 <> EmptyString.
Proof. destruct s1; discriminate. Qed.

(** C5, as amended: a 4xx or 5xx answer other than a 404 or a 409 on
    ["packages"], whose body is not JSON, is raised as a [CodeExecutionError]
    whose message is ["API request failed: "] followed by the non-empty text
    of the [HTTPError] (status, reason and URL); the decoding failure itself
    is caught. *)
Theorem classify_error_status_undecodable_body endpoint r
    (Hcode : (400 <= status_code r < 600)%Z) (Hnf : status_code r <> 404%Z)
    (Hconf : status_code r = 409%Z -> endpoint <> "packages")
    (Hbody : json_loads (content r) = None) :
  exists d, http_error_msg r = Some d /\ d <> EmptyString /\
    classify endpoint (Response r) = Err (CodeExecutionError ("API request failed: " +:+ d)).
Proof.
  assert (Hd : exists d, http_error_msg r = Some d /\ d <> EmptyString).
  { unfold http_error_msg.
    destruct ((400 <=? status_code r)%Z && (status_code r <? 500)%Z) eqn:E1.
    - eexists. split; [reflexivity|]. apply append_string_not_empty.
    - destruct ((500 <=? status_code r)%Z && (status_code r <? 600)%Z) eqn:E.
      + eexists. split; [reflexivity|]. apply append_string_not_empty.
      + exfalso.
        apply andb_false_iff in E1 as [E1|E1];
          [apply Z.leb_gt in E1 | apply Z.ltb_ge in E1];
        apply andb_false_iff in E as [E|E];
          [apply Z.leb_gt in E | apply Z.ltb_ge in E | apply Z.leb_gt in E | apply Z.ltb_ge in E];
        lia. }
  destruct Hd as [d [Hd Hne]]. exists d. split; [done|]. split; [done|].
  unfold classify, make_request_try.
  destruct (Z.eqb_spec (status_code r) 404) as [|_]; [done|].
  replace ((status_code r =? 409)%Z && String.eqb endpoint "packages") with false.
  2:{ destruct (Z.eqb_spec (status_code r) 409) as [E|_]; [|done].
      simpl. symmetry. apply String.eqb_neq. by apply Hconf. }
  unfold raise_for_status. rewrite Hd. simpl.
  unfold response_json. rewrite Hbody. reflexivity.
Qed.

(** *** The request payload of [execute_code] *)

(** The optional parameters of [execute_code] with the value the caller gave
    each one, as the wire names them. *)
Definition optional_fields (kw : exec_kwargs) : list (string * option json) :=
  [("dependencies", json_strings <$> kw_dependencies kw);
   ("args", json_strings <$> kw_args kw);
   ("stdin", JString <$> kw_stdin kw);
   ("compile_memory_limit", JNum <$> kw_compile_memory_limit kw);
   ("run_memory_limit", JNum <$> kw_run_memory_limit kw);
   ("run_timeout", JNum <$> kw_run_timeout kw);
   ("compile_timeout", JNum <$> kw_compile_timeout kw);
   ("run_cpu_time", JNum <$> kw_run_cpu_time kw);
   ("compile_cpu_time", JNum <$> kw_compile_cpu_time kw)].

(** The names of the optional parameters the caller gave. *)
Definition given_keys (kw : exec_kwargs) : list string :=
  omap (fun '(k, o) => (fun _ => k) <$> o) (optional_fields kw).

Lemma dict_get_set_other k k' v p :
  k <> k' -> dict_get k (dict_set k' v p) = dict_get k p.
Proof.
  intros Hne. induction p as [|[k0 v0] t IH]; simpl.
  - destruct (String.eqb_spec k k'); congruence.
  - destruct (String.eqb_spec k' k0) as [->|_]; simpl.
    + destruct (dict_get k t); [done|].
      destruct (String.eqb_spec k k0); congruence.
    + by rewrite IH.
Qed.

Lemma set_if_given_other k k' x p :
  k <> k' -> dict_get k (set_if_given k' x p) = dict_get k p.
Proof. destruct x; simpl; [apply dict_get_set_other|done]. Qed.

(** C2: the payload has the keys [language], [version], [files] and exactly
    the optional keys the caller gave, each carrying the caller's value (so an
    empty dependency or argument list is sent as an empty list), and no key
    is sent with a null value. *)
Theorem execute_payload_optional_keys code language version kw :
  let payload := execute_payload code language version kw in
  map fst payload = (["language"; "version"; "files"] ++ given_keys kw)%list
  /\ Forall (fun ko => dict_get ko.1 payload = ko.2) (optional_fields kw)
  /\ (kw_dependencies kw = Some [] -> dict_get "dependencies" payload = Some (JArray []))
  /\ (kw_args kw = Some [] -> dict_get "args" payload = Some (JArray []))
  /\ Forall (fun kv => kv.2 <> JNull) payload.
Proof.
  destruct kw as [n e d a s cm rm rt ct rc cc hd]; simpl.
  destruct d, a, s, cm, rm, rt, ct, rc, cc; simpl;
    (split; [reflexivity|]);
    (split; [repeat constructor|]);
    (split; [intros H; inversion H; reflexivity|]);
    (split; [intros H; inversion H; reflexivity|]);
    repeat constructor; simpl; discriminate.
Qed.

(** C6: whatever optional parameters are given, the payload carries the
    language, the version and one file whose content is the code, named
    ["main"] and encoded ["utf8"] unless the caller chose otherwise. *)
Theorem execute_payload_core code language version kw :
  let payload := execute_payload code language version kw in
  dict_get "language" payload = Some (JString language)
  /\ dict_get "version" payload = Some (JString version)
  /\ dict_get "files" payload =
     Some (JArray [JObject [("name", JString (default "main" (kw_name kw)));
                            ("content", JString code);
                            ("encoding", JString (default "utf8" (kw_encoding kw)))]]).
Proof.
  unfold execute_payload. simpl.
  repeat rewrite set_if_given_other by discriminate.
  simpl. repeat split.
Qed.

(** *** Parsing the result of [execute_code] *)

(** A stage is present when the response is a mapping whose [stages] member
    is a mapping with that stage's key. *)
Definition stage_present (response : json) (stage : string) : Prop :=
  exists l sl st, response = JObject l /\ dict_get "stages" l = Some (JObject sl)
                  /\ dict_get stage sl = Some st.

Lemma parse_stage_spec stages stage x :
  parse_stage stages stage = Ok x ->
  (x = None /\ forall sl, stages = JObject sl -> dict_get stage sl = None)
  \/ (exists sl st o e, stages = JObject sl /\ dict_get stage sl = Some st
        /\ py_get st "stdout" JNull = Ok o /\ py_get st "stderr" JNull = Ok e
        /\ x = Some (o, e)).
Proof.
  unfold parse_stage.
  destruct stages as [| | |s|a|sl]; simpl; try discriminate.
  - destruct (is_substring stage s); simpl; [discriminate|].
    intros [= <-]. left. split; [done|]. discriminate.
  - destruct (existsb _ a); simpl; [discriminate|].
    intros [= <-]. left. split; [done|]. discriminate.
  - destruct (dict_get stage sl) as [st|] eqn:Hst; simpl.
    + destruct (py_get st "stdout" JNull) as [o|] eqn:Ho; simpl; [|discriminate].
      destruct (py_get st "stderr" JNull) as [e|] eqn:He; simpl; [|discriminate].
      intros [= <-]. right. by exists sl, st, o, e.
    + intros [= <-]. left. split; [done|]. by intros ? [= <-].
Qed.

Lemma parse_result_inv response r :
  parse_result response = Ok r ->
  (exists l stages ins exe, response = JObject l /\ dict_get "stages" l = Some stages
     /\ parse_stage stages "install" = Ok ins /\ parse_stage stages "execute" = Ok exe
     /\ (install_output r, install_error r) = default (JNull, JNull) ins
     /\ (execute_output r, execute_error r) = default (JNull, JNull) exe)
  \/ ((forall l, response = JObject l -> dict_get "stages" l = None)
      /\ install_output r = JNull /\ install_error r = JNull
      /\ execute_output r = JNull /\ execute_error r = JNull).
Proof.
  unfold parse_result.
  destruct response as [| | |s|a|l]; simpl; try discriminate.
  - destruct (is_substring "stages" s); simpl; [discriminate|].
    destruct (is_substring "webAppUrl" s); simpl; [discriminate|].
    intros [= <-]. right. split; [discriminate|]. done.
  - destruct (existsb _ a); simpl; [discriminate|].
    destruct (existsb _ a); simpl; [discriminate|].
    intros [= <-]. right. split; [discriminate|]. done.
  - destruct (dict_get "stages" l) as [stages|] eqn:Hs; simpl.
    + destruct (parse_stage stages "install") as [ins|] eqn:Hi; simpl; [|discriminate].
      destruct (default (JNull, JNull) ins) as [io ie] eqn:Hio.
      destruct (parse_stage stages "execute") as [exe|] eqn:He; simpl; [|discriminate].
      destruct (default (JNull, JNull) exe) as [eo ee] eqn:Heo. simpl.
      intros H. left. exists l, stages, ins, exe.
      destruct (dict_get "webAppUrl" l); simpl in H; injection H as <-; simpl;
        by rewrite Hio, Heo.
    + intros H. right. split; [by intros ? [= <-]|].
      destruct (dict_get "webAppUrl" l); simpl in H; injection H as <-; done.
Qed.

Lemma stage_fields_of response l stages stage x out err :
  response = JObject l -> dict_get "stages" l = Some stages ->
  parse_stage stages stage = Ok x -> (out, err) = default (JNull, JNull) x ->
  (~ stage_present response stage -> out = JNull /\ err = JNull)
  /\ (forall l' sl st, response = JObject l' -> dict_get "stages" l' = Some (JObject sl) ->
        dict_get stage sl = Some st ->
        py_get st "stdout" JNull = Ok out /\ py_get st "stderr" JNull = Ok err).
Proof.
  intros -> Hs Hx Hoe.
  apply parse_stage_spec in Hx as [[-> Hn]|(sl & st & o & e & -> & Hst & Ho & He & ->)];
    simpl in Hoe; injection Hoe as -> ->.
  - split; [done|]. intros l' sl st [= <-] Hs' Hst.
    rewrite Hs in Hs'. injection Hs' as ->. by rewrite Hn in Hst.
  - split.
    + intros Hp. exfalso. apply Hp. by exists l, sl, st.
    + intros l' sl' st' [= <-] Hs' Hst'. rewrite Hs in Hs'. injection Hs' as <-.
      rewrite Hst in Hst'. by injection Hst' as <-.
Qed.

Lemma stage_fields_absent response stage out err :
  (forall l, response = JObject l -> dict_get "stages" l = None) ->
  out = JNull -> err = JNull ->
  (~ stage_present response stage -> out = JNull /\ err = JNull)
  /\ (forall l' sl st, response = JObject l' -> dict_get "stages" l' = Some (JObject sl) ->
        dict_get stage sl = Some st ->
        py_get st "stdout" JNull = Ok out /\ py_get st "stderr" JNull = Ok err).
Proof.
  intros Hn -> ->. split; [done|].
  intros l sl st Hr Hs. by rewrite (Hn l Hr) in Hs.
Qed.

(** C3: a stage's two fields are set only from that stage.  When the
    response has no [install] (resp. [execute]) stage, [install_output] and
    [install_error] (resp. the [execute] pair) stay [None]; when it has one,
    they are the stage's [stdout] and [stderr] members ([None] when missing). *)
Theorem parse_result_stages response r (H : parse_result response = Ok r) :
  (~ stage_present response "install" -> install_output r = JNull /\ install_error r = JNull)
  /\ (~ stage_present response "execute" -> execute_output r = JNull /\ execute_error r = JNull)
  /\ (forall l sl st, response = JObject l -> dict_get "stages" l = Some (JObject sl) ->
        dict_get "install" sl = Some st ->
        py_get st "stdout" JNull = Ok (install_output r)
        /\ py_get st "stderr" JNull = Ok (install_error r))
  /\ (forall l sl st, response = JObject l -> dict_get "stages" l = Some (JObject sl) ->
        dict_get "execute" sl = Some st ->
        py_get st "stdout" JNull = Ok (execute_output r)
        /\ py_get st "stderr" JNull = Ok (execute_error r)).
Proof.
  apply parse_result_inv in H as
    [(l & stages & ins & exe & Hr & Hs & Hi & He & Hio & Heo)|(Hn & H1 & H2 & H3 & H4)].
  - destruct (stage_fields_of response l stages "install" ins _ _ Hr Hs Hi Hio) as [A B].
    destruct (stage_fields_of response l stages "execute" exe _ _ Hr Hs He Heo) as [C D].
    done.
  - destruct (stage_fields_absent response "install" _ _ Hn H1 H2) as [A B].
    destruct (stage_fields_absent response "execute" _ _ Hn H3 H4) as [C D].
    done.
Qed.

(** *** Decoding the runtime catalogue *)

Lemma res_mapM_Forall2 {A B} (f : A -> res B) l ys :
  res_mapM f l = Ok ys -> Forall2 (fun x y => f x = Ok y) l ys.
Proof.
  revert ys. induction l as [|x t IH]; simpl; intros ys.
  - intros [= <-]. constructor.
  - destruct (f x) as [y|e] eqn:Hf; simpl; [|discriminate].
    destruct (res_mapM f t) as [ys'|e] eqn:Ht; simpl; [|discriminate].
    intros [= <-]. constructor; [done|]. by apply IH.
Qed.

Lemma res_mapM_err {A B} (f : A -> res B) l x e :
  In x l -> f x = Err e -> exists e', res_mapM f l = Err e'.
Proof.
  induction l as [|y t IH]; simpl; [done|].
  intros [->|Hin] Hf.
  - rewrite Hf. simpl. by eexists.
  - destruct (f y); simpl; [|by eexists].
    destruct (IH Hin Hf) as [e' ->]. simpl. by eexists.
Qed.

Lemma dict_keys_aux_nil seen l :
  dict_keys_aux seen l = [] -> forall k v, In (k, v) l -> In k seen.
Proof.
  revert seen. induction l as [|[k0 v0] t IH]; simpl; intros seen Hk k v; [done|].
  destruct (existsb (String.eqb k0) seen) eqn:Ex; [|discriminate].
  intros [[= -> ->]|Hin]; [|by eapply IH].
  apply existsb_exists in Ex as (x & Hx & Hxe). apply String.eqb_eq in Hxe. by subst.
Qed.

Lemma dict_keys_nil l : dict_keys l = [] -> l = [].
Proof.
  intros H. destruct l as [|[k v] t]; [done|].
  exfalso. by apply (dict_keys_aux_nil [] _ H k v); left.
Qed.

(** What [runtimes_of_response] does with a body: one [Runtime] per element
    of an array, or nothing from an empty object or an empty string. *)
Lemma runtimes_of_response_shape response rs :
  runtimes_of_response response = Ok rs ->
  (exists es, response = JArray es /\ Forall2 (fun e r => runtime_of_entry e = Ok r) es rs)
  \/ (rs = [] /\ (response = JObject [] \/ response = JString EmptyString)).
Proof.
  unfold runtimes_of_response.
  destruct response as [| | |s|es|l]; simpl; try discriminate.
  - destruct s as [|ch s]; simpl; [intros [= <-]; right; auto|discriminate].
  - intros H. left. exists es. split; [done|]. by apply res_mapM_Forall2.
  - destruct (dict_keys l) as [|k ks] eqn:Hk; simpl.
    + intros [= <-]. right. split; [done|]. left. by rewrite (dict_keys_nil l Hk).
    + discriminate.
Qed.

(** C8: [list_runtimes] decodes all of an array body or fails: when it
    returns, it has one [Runtime] per element, each decoded from that element
    (or none, for a body with no elements at all: [{}] or an empty string); when some
    element does not decode, the whole call fails. *)
Theorem list_runtimes_all_or_nothing c h headers response h'
    (Hreq : make_request c h "GET" "/runtimes" headers None = (Ok response, h')) :
  (forall rs, (list_runtimes c h headers).1 = Ok rs ->
     (exists es, response = JArray es /\ Forall2 (fun e r => runtime_of_entry e = Ok r) es rs)
     \/ (rs = [] /\ (response = JObject [] \/ response = JString EmptyString)))
  /\ (forall es e err, response = JArray es -> In e es -> runtime_of_entry e = Err err ->
        exists err', (list_runtimes c h headers).1 = Err err').
Proof.
  unfold list_runtimes. rewrite Hreq. simpl. split.
  - apply runtimes_of_response_shape.
  - intros es e err -> Hin He. unfold runtimes_of_response. simpl.
    by eapply res_mapM_err.
Qed.

Lemma dict_get_in_keys k l v : dict_get k l = Some v -> In k (map fst l).
Proof.
  revert v. induction l as [|[k0 v0] t IH]; intros v; simpl; [done|].
  destruct (dict_get k t) as [w|] eqn:Ht.
  { intros _. right. by apply (IH w). }
  destruct (String.eqb_spec k k0) as [->|]; [by left|done].
Qed.

Lemma dict_keys_aux_in seen l k :
  In k (map fst l) -> ~ In k seen -> In k (dict_keys_aux seen l).
Proof.
  revert seen. induction l as [|[k0 v0] t IH]; simpl; intros seen; [done|].
  intros Hin Hns.
  destruct (existsb (String.eqb k0) seen) eqn:Ex.
  - apply IH; [|done]. destruct Hin as [->|]; [|done].
    exfalso. apply existsb_exists in Ex as (x & Hx & Hxe).
    apply String.eqb_eq in Hxe. subst. done.
  - destruct (String.eqb_spec k0 k) as [->|Hne]; [by left|].
    right. apply IH; [by destruct Hin|]. by intros [->|].
Qed.

Lemma dict_get_in_dict_keys k l v : dict_get k l = Some v -> In k (dict_keys l).
Proof.
  intros H. apply dict_keys_aux_in; [by eapply dict_get_in_keys|intros []].
Qed.

Lemma runtime_of_entry_err e err : runtime_of_entry e = Err err -> err = TypeError.
Proof.
  unfold runtime_of_entry. destruct e as [| | | | |l]; try (intros [= <-]; done).
  destruct (forallb _ (dict_keys l)); [|intros [= <-]; done].
  destruct (dict_get "language" l), (dict_get "version" l);
    (discriminate || (intros [= <-]; done)).
Qed.

Lemma res_mapM_err_elem {A B} (f : A -> res B) l e :
  res_mapM f l = Err e -> exists x, In x l /\ f x = Err e.
Proof.
  induction l as [|y t IH]; simpl; [discriminate|].
  destruct (f y) as [b|e'] eqn:Hf; simpl.
  - destruct (res_mapM f t) as [bs|e'] eqn:Ht; simpl; [discriminate|].
    intros [= <-]. destruct (IH eq_refl) as (x & Hx & Hfx). exists x. by split; [right|].
  - intros [= <-]. exists y. by split; [left|].
Qed.

Lemma runtime_of_entry_unknown_key m k :
  In k (dict_keys m) -> ~ In k ["language"; "version"; "runtime"; "aliases"] ->
  runtime_of_entry (JObject m) = Err TypeError.
Proof.
  intros Hin Hk. unfold runtime_of_entry.
  destruct (forallb _ (dict_keys m)) eqn:F; [|reflexivity].
  exfalso. rewrite forallb_forall in F. specialize (F k Hin).
  apply bool_decide_eq_true in F. apply Hk. by apply list_elem_of_In.
Qed.

(** C10, as amended: an entry whose only members are [language] and
    [version] decodes to a [Runtime] with [runtime] [None] and [aliases]
    the empty list; and an array body with an entry that has a member
    other than [language], [version], [runtime] and [aliases] makes the
    whole [list_runtimes] call fail. *)
Theorem runtime_of_entry_defaults l lang ver
    (Hkeys : forall k, In k (dict_keys l) -> k = "language" \/ k = "version")
    (Hlang : dict_get "language" l = Some lang) (Hver : dict_get "version" l = Some ver) :
  runtime_of_entry (JObject l) =
  Ok {| language := lang; version := ver; runtime := JNull; aliases := JArray [] |}
  /\ forall c h headers es h' m k,
       make_request c h "GET" "/runtimes" headers None = (Ok (JArray es), h') ->
       In (JObject m) es -> In k (dict_keys m) ->
       ~ In k ["language"; "version"; "runtime"; "aliases"] ->
       (list_runtimes c h headers).1 = Err TypeError.
Proof.
  split.
  - unfold runtime_of_entry.
    replace (forallb _ (dict_keys l)) with true.
    2:{ symmetry. apply forallb_forall. intros k Hk.
        apply bool_decide_eq_true. destruct (Hkeys k Hk) as [->| ->];
          repeat constructor. }
    rewrite Hlang, Hver.
    destruct (dict_get "runtime" l) eqn:Hr.
    { apply dict_get_in_dict_keys, Hkeys in Hr. by destruct Hr. }
    destruct (dict_get "aliases" l) eqn:Ha.
    { apply dict_get_in_dict_keys, Hkeys in Ha. by destruct Ha. }
    reflexivity.
  - intros c h headers es h' m k Hreq Hm Hin Hk.
    unfold list_runtimes. rewrite Hreq. simpl. unfold runtimes_of_response. simpl.
    destruct (res_mapM_err runtime_of_entry es (JObject m) TypeError Hm
                (runtime_of_entry_unknown_key m k Hin Hk)) as [e' He'].
    rewrite He'. destruct (res_mapM_err_elem _ _ _ He') as (x & _ & Hx).
    by rewrite (runtime_of_entry_err x e' Hx).
Qed.

(** *** URLs *)

Lemma rstrip_slash_split s :
  exists t, s = rstrip_slash s +:+ t /\ all_slashes t = true.
Proof.
  induction s as [|ch s IH]; simpl; [by exists EmptyString|].
  destruct IH as (t & Ht & Hs).
  destruct (Ascii.eqb ch "/"%char) eqn:Ec; simpl.
  - destruct (String.eqb (rstrip_slash s) EmptyString) eqn:E; simpl.
    + apply String.eqb_eq in E.
      exists (String ch s). simpl. rewrite Ec. split; [done|].
      rewrite Ht, E. exact Hs.
    + exists t. split; [exact (f_equal (String ch) Ht)|exact Hs].
  - exists t. split; [exact (f_equal (String ch) Ht)|exact Hs].
Qed.

Lemma rstrip_slash_last s :
  rstrip_slash s = EmptyString \/
  exists p ch, rstrip_slash s = p +:+ String ch EmptyString /\ ch <> "/"%char.
Proof.
  induction s as [|ch s IH]; simpl; [by left|].
  destruct (String.eqb_spec (rstrip_slash s) EmptyString) as [E|E].
  - rewrite E. destruct (Ascii.eqb_spec ch "/"%char) as [->|Hc]; simpl; [by left|].
    right. exists EmptyString, ch. done.
  - rewrite andb_false_r. right.
    destruct IH as [|(p & c & Hp & Hc)]; [done|].
    exists (String ch p), c. rewrite Hp. done.
Qed.

Lemma lstrip_slash_cons ch s :
  lstrip_slash (String ch s) =
  if Ascii.eqb ch "/"%char then lstrip_slash s else String ch s.
Proof. destruct ch as [[] [] [] [] [] [] [] []]; reflexivity. Qed.

Lemma lstrip_slash_split s :
  exists t, s = t +:+ lstrip_slash s /\ all_slashes t = true.
Proof.
  induction s as [|ch s IH]; [by exists EmptyString|].
  rewrite lstrip_slash_cons. destruct (Ascii.eqb ch "/"%char) eqn:Ec.
  - destruct IH as (t & Ht & Hs). exists (String ch t). simpl.
    rewrite Ec, Hs. split; [exact (f_equal (String ch) Ht)|done].
  - by exists EmptyString.
Qed.

Lemma lstrip_slash_first s :
  lstrip_slash s = EmptyString \/
  exists ch rest, lstrip_slash s = String ch rest /\ ch <> "/"%char.
Proof.
  induction s as [|ch s IH]; [by left|].
  rewrite lstrip_slash_cons. destruct (Ascii.eqb_spec ch "/"%char) as [_|Hc]; [done|].
  right. by exists ch, s.
Qed.

Lemma rstrip_slash_app a b :
  rstrip_slash b <> EmptyString -> rstrip_slash (a +:+ b) = a +:+ rstrip_slash b.
Proof.
  intros Hb. induction a as [|ch a IH]; simpl; [done|].
  rewrite IH. destruct (String.eqb_spec (a +:+ rstrip_slash b) EmptyString) as [E|E].
  - exfalso. destruct a; simpl in E; [exact (Hb E)|discriminate].
  - by rewrite andb_false_r.
Qed.

Lemma rstrip_slash_app_empty a b :
  rstrip_slash b = EmptyString -> rstrip_slash (a +:+ b) = rstrip_slash a.
Proof.
  intros Hb. induction a as [|ch a IH]; simpl; [done|]. by rewrite IH.
Qed.

Lemma split_once_none sep s :
  split_once sep s = None <-> is_substring sep s = false.
Proof.
  induction s as [|ch s IH]; cbn [split_once is_substring].
  - destruct (String.prefix sep EmptyString); simpl;
      split; intros H; (discriminate || reflexivity).
  - destruct (String.prefix sep (String ch s)); simpl;
      [split; intros H; discriminate|].
    rewrite <- IH. destruct (split_once sep s) as [[a b]|];
      split; intros H; (discriminate || reflexivity).
Qed.

Lemma prefix_cons a s1 b s2 :
  String.prefix (String a s1) (String b s2) =
  if Ascii.ascii_dec a b then String.prefix s1 s2 else false.
Proof. reflexivity. Qed.

Lemma split_once_cons sep ch s :
  split_once sep (String ch s) =
  if String.prefix sep (String ch s)
  then Some (EmptyString, str_drop (String.length sep) (String ch s))
  else match split_once sep s with
       | Some (a, b) => Some (String ch a, b)
       | None => None
       end.
Proof. reflexivity. Qed.

Lemma split_once_scheme s rest :
  ~ In ":"%char (list_ascii_of_string s) ->
  split_once "://" (s +:+ "://" +:+ rest) = Some (s, rest).
Proof.
  induction s as [|ch s IH]; intros Hs; [simpl; by destruct rest|].
  simpl in Hs. change (String ch s +:+ ?r) with (String ch (s +:+ r)).
  rewrite split_once_cons, prefix_cons.
  destruct (Ascii.ascii_dec ":"%char ch) as [E|_]; [by destruct Hs; left|].
  rewrite IH by (intros Hin; apply Hs; by right). reflexivity.
Qed.

Lemma split_once_scheme_colon s :
  ~ In ":"%char (list_ascii_of_string s) ->
  split_once "://" (s +:+ ":") = None.
Proof.
  induction s as [|ch s IH]; intros Hs; [reflexivity|].
  simpl in Hs. change (String ch s +:+ ?r) with (String ch (s +:+ r)).
  rewrite split_once_cons, prefix_cons.
  destruct (Ascii.ascii_dec ":"%char ch) as [E|_]; [by destruct Hs; left|].
  rewrite IH by (intros Hin; apply Hs; by right). reflexivity.
Qed.

(** *** Construction of a client *)

(** [__init__] gives the session a header dictionary of its own, holding
    requests' default headers overridden by the [headers] argument. *)
Theorem client_init_session_headers ua ae h b tmo headers :
  exists d,
    (client_init ua ae h b tmo headers).2 !! session_headers (client_init ua ae h b tmo headers).1
      = Some d
    /\ ci_wf d
    /\ forall k, ci_get k d =
       match ci_last k (default [] headers) with
       | Some v => Some v
       | None => ci_get k (requests_default_headers ua ae)
       end.
Proof.
  unfold client_init. simpl.
  destruct (truthy_headers headers) eqn:T.
  - eexists. rewrite !lookup_insert_eq. simpl. split; [reflexivity|]. split.
    + apply ci_update_wf, ci_update_nil_wf.
    + intros k. apply ci_get_update.
  - eexists. rewrite lookup_insert_eq. split; [reflexivity|]. split.
    + apply ci_update_nil_wf.
    + intros k. by destruct headers as [[|]|].
Qed.

(** The stored base URL is the argument without its trailing slashes. *)
Theorem client_init_base_url ua ae h b tmo headers :
  let u := base_url (client_init ua ae h b tmo headers).1 in
  (exists t, b = u +:+ t /\ all_slashes t = true)
  /\ (u = EmptyString \/ exists p ch, u = p +:+ String ch EmptyString /\ ch <> "/"%char).
Proof.
  unfold client_init. simpl. split; [apply rstrip_slash_split|apply rstrip_slash_last].
Qed.

(** [_make_request] sends to the base URL, one slash, and the endpoint
    without its leading slashes. *)
Theorem make_request_url c h method endpoint headers body :
  exists sent h' t e,
    make_request c h method endpoint headers body =
      (classify endpoint (transport method (base_url c +:+ "/" +:+ e) (timeout c) sent body), h')
    /\ endpoint = t +:+ e /\ all_slashes t = true
    /\ (e = EmptyString \/ exists ch rest, e = String ch rest /\ ch <> "/"%char).
Proof.
  destruct (lstrip_slash_split endpoint) as (t & Ht & Hs).
  unfold make_request. destruct (request_headers c h headers) as [kw h1].
  eexists _, h1, t, (lstrip_slash endpoint).
  split; [reflexivity|]. split; [exact Ht|]. split; [exact Hs|].
  apply lstrip_slash_first.
Qed.

(** [connect_websocket] fails with [IndexError] exactly when the base URL
    has no ["://"]. *)
Theorem websocket_url_index_error c :
  websocket_url c = None <-> is_substring "://" (base_url c) = false.
Proof.
  unfold websocket_url. rewrite <- split_once_none.
  destruct (split_once "://" (base_url c)) as [[a b]|];
    split; intros H; (discriminate || reflexivity).
Qed.

(** For a client built on [scheme://rest] with a scheme free of [':'], the
    websocket URL is [ws://] and [rest] without trailing slashes, then
    [/connect], whatever the scheme; a [rest] of slashes only is stripped
    with them by [__init__] and gives [IndexError]. *)
Theorem client_websocket_url ua ae h scheme rest tmo headers
    (Hs : ~ In ":"%char (list_ascii_of_string scheme)) :
  websocket_url (client_init ua ae h (scheme +:+ "://" +:+ rest) tmo headers).1 =
  if String.eqb (rstrip_slash rest) EmptyString then None
  else Some ("ws://" +:+ rstrip_slash rest +:+ "/connect").
Proof.
  unfold websocket_url, client_init. simpl.
  destruct (String.eqb_spec (rstrip_slash rest) EmptyString) as [E|E].
  - assert (R : rstrip_slash ("://" +:+ rest) = ":").
    { by rewrite rstrip_slash_app_empty. }
    rewrite rstrip_slash_app, R by (rewrite R; discriminate).
    by rewrite split_once_scheme_colon.
  - assert (R : rstrip_slash ("://" +:+ rest) = "://" +:+ rstrip_slash rest).
    { by rewrite rstrip_slash_app. }
    rewrite rstrip_slash_app, R by (rewrite R; discriminate).
    by rewrite split_once_scheme.
Qed.

(** *** What [_make_request] raises *)

Lemma http_error_msg_none r :
  http_error_msg r = None <-> (status_code r < 400 \/ 600 <= status_code r)%Z.
Proof.
  unfold http_error_msg.
  destruct (Z.leb_spec 400 (status_code r)); destruct (Z.ltb_spec (status_code r) 500);
    destruct (Z.leb_spec 500 (status_code r)); destruct (Z.ltb_spec (status_code r) 600);
    simpl; split; intros Hx; try discriminate; try reflexivity; lia.
Qed.

Lemma make_request_try_errors endpoint o e :
  make_request_try endpoint o = Err e ->
  (exists m, e = PackageNotFoundError m) \/ (exists m, e = PackageAlreadyInstalledError m)
  \/ (exists d, e = RequestsJSONDecodeError d) \/ (exists d, e = ConnectionError d)
  \/ (exists d r, e = HTTPError d r) \/ e = AttributeError.
Proof.
  unfold make_request_try. destruct o as [r|d]; [|intros [= <-]; eauto 10].
  destruct (status_code r =? 404)%Z.
  { unfold response_json. destruct (json_loads (content r)) as [j|]; [destruct j|];
      simpl; intros [= <-]; eauto 10. }
  destruct ((status_code r =? 409)%Z && String.eqb endpoint "packages").
  { unfold response_json. destruct (json_loads (content r)) as [j|]; [destruct j|];
      simpl; intros [= <-]; eauto 10. }
  unfold raise_for_status. destruct (http_error_msg r); simpl; [intros [= <-]; eauto 10|].
  destruct (String.eqb (content r) EmptyString); [discriminate|].
  unfold response_json. destruct (json_loads (content r)); simpl;
    [discriminate|intros [= <-]; eauto 10].
Qed.

Lemma make_request_handler_errors e e' :
  make_request_handler e = Err e' -> is_request_exception e = true ->
  (exists m, e' = CodeExecutionError m) \/ e' = AttributeError.
Proof.
  destruct e as [| | |d r| | | | |]; simpl; try discriminate;
    [|intros [= <-]; eauto|intros [= <-]; eauto].
  unfold response_json. destruct (json_loads (content r)) as [j|]; [destruct j|];
    simpl; intros [= <-]; eauto.
Qed.

(** [_make_request] lets no exception of [requests] through: it raises
    [PackageNotFoundError], [PackageAlreadyInstalledError],
    [CodeExecutionError], or the [AttributeError] of calling [.get] on a
    JSON error body that is not an object. *)
Theorem classify_raises endpoint o :
  match classify endpoint o with
  | Ok _ => True
  | Err e =>
      (exists m, e = PackageNotFoundError m) \/ (exists m, e = PackageAlreadyInstalledError m)
      \/ (exists m, e = CodeExecutionError m) \/ e = AttributeError
  end.
Proof using json_loads decode_err_str py_repr.
  unfold classify. destruct (make_request_try endpoint o) as [j|e] eqn:T; [done|].
  destruct (is_request_exception e) eqn:R.
  - destruct (make_request_handler e) as [j|e'] eqn:Hh; [done|].
    destruct (make_request_handler_errors e e' Hh R) as [(m & ->)| ->].
    + right; right; left. by exists m.
    + by right; right; right.
  - destruct (make_request_try_errors endpoint o e T)
      as [(m & ->)|[(m & ->)|[(d & ->)|[(d & ->)|[(d & r & ->)| ->]]]]];
      try discriminate.
    + left. by exists m.
    + right; left. by exists m.
    + by right; right; right.
Qed.

(** A failed connection becomes [CodeExecutionError] with the text of the
    [requests] exception. *)
Theorem classify_network_error endpoint d :
  classify endpoint (NetworkError d) = Err (CodeExecutionError ("API request failed: " +:+ d)).
Proof. reflexivity. Qed.

(** A 404 answer, or a 409 answer to the endpoint spelt ["packages"], whose
    body is a JSON object raises [PackageNotFoundError] or
    [PackageAlreadyInstalledError] with the body's [message], or with the
    default text when the body has none. *)
Theorem classify_package_errors endpoint r l
    (Hj : json_loads (content r) = Some (JObject l)) :
  (status_code r = 404%Z ->
   classify endpoint (Response r) =
   Err (PackageNotFoundError (default (JString "Package not found") (dict_get "message" l))))
  /\ (status_code r = 409%Z -> endpoint = "packages" ->
   classify endpoint (Response r) =
   Err (PackageAlreadyInstalledError
          (default (JString "Package already installed") (dict_get "message" l)))).
Proof.
  unfold classify, make_request_try, response_json. rewrite Hj. split.
  - intros ->. reflexivity.
  - intros -> ->. reflexivity.
Qed.

(** Any other 4xx or 5xx answer whose body is a JSON object raises
    [CodeExecutionError] with the body's [message], or with the text of
    [raise_for_status]'s [HTTPError] when the body has none. *)
Theorem classify_http_error_object endpoint r l
    (Hst : (400 <= status_code r < 600)%Z) (H404 : status_code r <> 404%Z)
    (H409 : ~ (status_code r = 409%Z /\ endpoint = "packages"))
    (Hj : json_loads (content r) = Some (JObject l)) :
  exists d, http_error_msg r = Some d /\
    classify endpoint (Response r) =
    Err (CodeExecutionError ("API request failed: " +:+ py_str (default (JString d) (dict_get "message" l)))).
Proof using json_loads decode_err_str py_repr.
  destruct (http_error_msg r) as [d|] eqn:He.
  2:{ apply http_error_msg_none in He. lia. }
  exists d. split; [done|].
  unfold classify, make_request_try.
  replace (status_code r =? 404)%Z with false by lia.
  replace ((status_code r =? 409)%Z && String.eqb endpoint "packages") with false.
  2:{ destruct (Z.eqb_spec (status_code r) 409); [|done].
      destruct (String.eqb_spec endpoint "packages"); [|done].
      exfalso. by apply H409. }
  unfold raise_for_status. rewrite He. simpl.
  unfold response_json. rewrite Hj. reflexivity.
Qed.

(** A 4xx or 5xx answer whose body is JSON but not an object makes
    [_make_request] raise [AttributeError] ([.get] on a list, a string, a
    number...), which its handler does not catch. *)
Theorem classify_error_non_object endpoint r j
    (Hst : (400 <= status_code r < 600)%Z)
    (Hj : json_loads (content r) = Some j) (Hno : forall l, j <> JObject l) :
  classify endpoint (Response r) = Err AttributeError.
Proof.
  assert (Hg : forall k d, py_get j k d = Err AttributeError).
  { intros k d. destruct j; simpl; try reflexivity. by destruct (Hno l). }
  unfold classify, make_request_try, response_json. rewrite Hj. simpl.
  destruct (status_code r =? 404)%Z; [by rewrite Hg|].
  destruct ((status_code r =? 409)%Z && String.eqb endpoint "packages"); [by rewrite Hg|].
  destruct (http_error_msg r) as [d|] eqn:He.
  2:{ apply http_error_msg_none in He. lia. }
  unfold raise_for_status. rewrite He. simpl.
  unfold response_json. rewrite Hj. simpl. by rewrite Hg.
Qed.

Lemma classify_below_400 endpoint r
    (Hst : (status_code r < 400 \/ 600 <= status_code r)%Z) :
  classify endpoint (Response r) =
  if String.eqb (content r) EmptyString then Ok (JObject [])
  else match json_loads (content r) with
       | Some j => Ok j
       | None => Err (CodeExecutionError ("API request failed: " +:+ decode_err_str (content r)))
       end.
Proof.
  unfold classify, make_request_try.
  replace (status_code r =? 404)%Z with false by lia.
  replace (status_code r =? 409)%Z with false by lia. simpl.
  unfold raise_for_status. rewrite (proj2 (http_error_msg_none r) Hst). simpl.
  destruct (String.eqb (content r) EmptyString); [reflexivity|].
  unfold response_json. by destruct (json_loads (content r)).
Qed.

(** An answer outside 4xx and 5xx is returned: [{}] for an empty body, the
    decoded body otherwise, and a body that is not JSON raises
    [CodeExecutionError] with the decoder's message. *)
Theorem classify_success endpoint r
    (Hst : (status_code r < 400 \/ 600 <= status_code r)%Z) :
  classify endpoint (Response r) =
  if String.eqb (content r) EmptyString then Ok (JObject [])
  else match json_loads (content r) with
       | Some j => Ok j
       | None => Err (CodeExecutionError ("API request failed: " +:+ decode_err_str (content r)))
       end.
Proof. by apply classify_below_400. Qed.

(** *** The other operations *)

Lemma make_request_transport c h method endpoint headers body o
    (Ht : forall sent, transport method (base_url c +:+ "/" +:+ lstrip_slash endpoint)
                         (timeout c) sent body = o) :
  (make_request c h method endpoint headers body).1 = classify endpoint o.
Proof.
  unfold make_request. destruct (request_headers c h headers) as [kw h1]. simpl.
  by rewrite Ht.
Qed.

(** [terminate_process] sends [DELETE] to [/process/<id>]; the service's
    404 for an unknown process, with a JSON object body, is reported as
    [PackageNotFoundError], with the default text "Package not found" when
    the body has no [message]. *)
Theorem terminate_process_not_found c h pid headers r l
    (Ht : forall sent, transport "DELETE" (base_url c +:+ "/process/" +:+ pid)
                         (timeout c) sent None = Response r)
    (H404 : status_code r = 404%Z) (Hj : json_loads (content r) = Some (JObject l)) :
  (terminate_process c h pid headers).1 =
  Err (PackageNotFoundError (default (JString "Package not found") (dict_get "message" l))).
Proof.
  unfold terminate_process.
  pose proof (make_request_transport c h "DELETE" ("/process/" +:+ pid) headers None
                (Response r) Ht) as E.
  destruct (make_request c h "DELETE" ("/process/" +:+ pid) headers None) as [res0 h1].
  simpl in *. subst res0.
  unfold classify, make_request_try, response_json. rewrite H404, Hj. reflexivity.
Qed.

(** [uninstall_package] sends [DELETE] to [/packages] with the language and
    version, and returns normally exactly when the answer is not a 4xx or
    5xx and its body is empty or JSON; a 409 raises [CodeExecutionError],
    not [PackageAlreadyInstalledError], as the endpoint is ["/packages"]. *)
Theorem uninstall_package_ok c h language version headers o
    (Ht : forall sent, transport "DELETE" (base_url c +:+ "/packages") (timeout c) sent
            (Some (JObject [("language", JString language); ("version", JString version)])) = o) :
  (uninstall_package c h language version headers).1 = Ok tt <->
  exists r, o = Response r /\ (status_code r < 400 \/ 600 <= status_code r)%Z
    /\ (content r = EmptyString \/ exists j, json_loads (content r) = Some j).
Proof.
  unfold uninstall_package.
  pose proof (make_request_transport c h "DELETE" "/packages" headers
    (Some (JObject [("language", JString language); ("version", JString version)])) o Ht) as E.
  destruct (make_request c h "DELETE" "/packages" headers _) as [res0 h1].
  simpl in *. subst res0. split.
  - destruct o as [r|d]; [|discriminate].
    destruct (http_error_msg r) as [m|] eqn:He.
    + unfold classify, make_request_try.
      destruct (status_code r =? 404)%Z.
      { unfold response_json. destruct (json_loads (content r)) as [j|]; [destruct j|];
          discriminate. }
      simpl. rewrite andb_false_r. unfold raise_for_status. rewrite He. simpl.
      unfold response_json. destruct (json_loads (content r)) as [j|]; [destruct j|];
        simpl; discriminate.
    + apply http_error_msg_none in He. rewrite classify_below_400 by done.
      intros Hok. exists r. split; [done|]. split; [done|].
      destruct (String.eqb_spec (content r) EmptyString); [by left|right].
      destruct (json_loads (content r)) as [j|]; [by exists j|discriminate].
  - intros (r & -> & Hst & Hc). rewrite classify_below_400 by done.
    destruct Hc as [Hc|(j & Hj)]; [by rewrite Hc|].
    rewrite Hj. by destruct (String.eqb (content r) EmptyString).
Qed.

Lemma dict_keys_in_get k l : In k (dict_keys l) -> exists v, dict_get k l = Some v.
Proof.
  unfold dict_keys. generalize (@nil string) as seen.
  induction l as [|[k0 v0] t IH]; simpl; intros seen; [done|].
  assert (Hk : forall v, (match dict_get k t with Some w => Some w
                          | None => if String.eqb k k0 then Some v else None end) = None ->
                         dict_get k t = None /\ k <> k0).
  { intros v. destruct (dict_get k t); [discriminate|].
    destruct (String.eqb_spec k k0); [discriminate|done]. }
  destruct (existsb (String.eqb k0) seen).
  - intros Hin. destruct (IH seen Hin) as [v Hv]. rewrite Hv. by exists v.
  - intros [->|Hin].
    + destruct (dict_get k t) as [w|]; [by exists w|]. rewrite String.eqb_refl. by eexists.
    + destruct (IH (k0 :: seen) Hin) as [v Hv]. rewrite Hv. by exists v.
Qed.

(** Calling [Package] with an entry as keyword arguments succeeds exactly on an object whose keys are the three
    fields [language], [language_version] and [installed], none missing
    (the dataclass has no defaults) and none other. *)
Theorem package_of_entry_spec e p :
  package_of_entry e = Ok p <->
  exists l, e = JObject l
    /\ (forall k, In k (dict_keys l) <-> k = "language" \/ k = "language_version" \/ k = "installed")
    /\ dict_get "language" l = Some (pkg_language p)
    /\ dict_get "language_version" l = Some (language_version p)
    /\ dict_get "installed" l = Some (installed p).
Proof using.
  split.
  - destruct e as [| | | | |l]; try discriminate. unfold package_of_entry.
    destruct (forallb _ (dict_keys l)) eqn:F; [|discriminate].
    destruct (dict_get "language" l) as [a|] eqn:Ha; [|discriminate].
    destruct (dict_get "language_version" l) as [b|] eqn:Hb; [|discriminate].
    destruct (dict_get "installed" l) as [c|] eqn:Hc; [|discriminate].
    intros [= <-]. exists l. split; [done|]. split; [|done].
    intros k. split.
    + intros Hk. rewrite forallb_forall in F. specialize (F k Hk).
      apply bool_decide_eq_true in F.
      apply elem_of_cons in F as [->|F]; [by left|].
      apply elem_of_cons in F as [->|F]; [by right; left|].
      apply elem_of_cons in F as [->|F]; [by right; right|].
      by apply not_elem_of_nil in F.
    + intros [->|[->| ->]]; by eapply dict_get_in_dict_keys.
  - intros (l & -> & Hk & Ha & Hb & Hc). unfold package_of_entry.
    replace (forallb _ (dict_keys l)) with true.
    2:{ symmetry. apply forallb_forall. intros k Hin.
        apply bool_decide_eq_true. destruct (proj1 (Hk k) Hin) as [->|[->| ->]];
          repeat constructor. }
    rewrite Ha, Hb, Hc. by destruct p.
Qed.

Lemma packages_of_response_shape response ps :
  packages_of_response response = Ok ps ->
  (exists es, response = JArray es /\ Forall2 (fun e p => package_of_entry e = Ok p) es ps)
  \/ (ps = [] /\ (response = JObject [] \/ response = JString EmptyString)).
Proof.
  unfold packages_of_response.
  destruct response as [| | |s|es|l]; simpl; try discriminate.
  - destruct s as [|ch s]; simpl; [intros [= <-]; right; auto|discriminate].
  - intros H. left. exists es. split; [done|]. by apply res_mapM_Forall2.
  - destruct (dict_keys l) as [|k ks] eqn:Hk; simpl.
    + intros [= <-]. right. split; [done|]. left. by rewrite (dict_keys_nil l Hk).
    + discriminate.
Qed.

(** [list_packages] returns one [Package] per element of an array body,
    each built from that element, or no package for [{}] or an empty body
    text; a non-empty object (iterated over its keys) or any other body
    fails. *)
Theorem list_packages_shape c h headers ps
    (Hok : (list_packages c h headers).1 = Ok ps) :
  exists response,
    (make_request c h "GET" "/packages" headers None).1 = Ok response
    /\ ((exists es, response = JArray es /\ Forall2 (fun e p => package_of_entry e = Ok p) es ps)
        \/ (ps = [] /\ (response = JObject [] \/ response = JString EmptyString))).
Proof.
  unfold list_packages in Hok.
  destruct (make_request c h "GET" "/packages" headers None) as [[response|e] h1].
  - exists response. split; [done|]. by apply packages_of_response_shape.
  - discriminate.
Qed.

(** *** The result of [execute_code] *)

(** The result depends on no member of the response object other than
    [stages] and [webAppUrl]. *)
Theorem parse_result_other_keys l1 l2
    (Hs : dict_get "stages" l1 = dict_get "stages" l2)
    (Hw : dict_get "webAppUrl" l1 = dict_get "webAppUrl" l2) :
  parse_result (JObject l1) = parse_result (JObject l2).
Proof. unfold parse_result, py_contains, py_getitem. simpl. by rewrite Hs, Hw. Qed.

(** For an object response, [web_app_url] is the [webAppUrl] member, or
    [None] when there is none. *)
Theorem parse_result_web_app_url l r
    (H : parse_result (JObject l) = Ok r) :
  web_app_url r = default JNull (dict_get "webAppUrl" l).
Proof.
  revert H. unfold parse_result, py_contains, py_getitem. simpl.
  destruct (dict_get "stages" l) as [st|]; simpl.
  - destruct (parse_stage st "install") as [inst|e]; simpl; [|discriminate].
    destruct (default (JNull, JNull) inst) as [io ie].
    destruct (parse_stage st "execute") as [exe|e]; simpl; [|discriminate].
    destruct (default (JNull, JNull) exe) as [eo ee]. simpl.
    destruct (dict_get "webAppUrl" l); simpl; by intros [= <-].
  - destruct (dict_get "webAppUrl" l); simpl; by intros [= <-].
Qed.

(** A [stages] member that is [null], a boolean or a number makes the
    [in] test raise [TypeError]. *)
Theorem parse_result_stages_scalar l v
    (Hs : dict_get "stages" l = Some v)
    (Hv : v = JNull \/ (exists b, v = JBool b) \/ (exists z, v = JNum z)) :
  parse_result (JObject l) = Err TypeError.
Proof.
  unfold parse_result, py_contains, py_getitem. simpl. rewrite Hs. simpl.
  unfold parse_stage. by destruct Hv as [->|[[b ->]|[z ->]]].
Qed.

Lemma py_get_non_object v k d :
  (forall m, v <> JObject m) -> py_get v k d = Err AttributeError.
Proof. intros Hno. destruct v; try reflexivity. by destruct (Hno l). Qed.

(** When [stages] is an object, an [install] or [execute] member that is not
    an object makes [.get("stdout")] raise [AttributeError]. *)
Theorem parse_result_stage_not_object l sl stage v
    (Hs : dict_get "stages" l = Some (JObject sl))
    (Hstage : stage = "install" \/ stage = "execute")
    (Hv : dict_get stage sl = Some v) (Hno : forall m, v <> JObject m) :
  parse_result (JObject l) = Err AttributeError.
Proof.
  unfold parse_result, py_contains, py_getitem. simpl. rewrite Hs. simpl.
  unfold parse_stage, py_contains, py_getitem. simpl.
  destruct Hstage as [->| ->].
  - rewrite Hv. simpl. by rewrite py_get_non_object.
  - destruct (dict_get "install" sl) as [w|]; simpl.
    + destruct w as [| | | | |m]; simpl; try reflexivity.
      rewrite Hv. simpl. by rewrite py_get_non_object.
    + rewrite Hv. simpl. by rewrite py_get_non_object.
Qed.

(** [execute_code] posts its payload to [/execute]; an answer outside 4xx
    and 5xx with an empty body gives the empty [ExecutionResult], every
    field [None]. *)
Theorem execute_code_empty_body c h code language version kw r
    (Ht : forall sent, transport "POST" (base_url c +:+ "/execute") (timeout c) sent
            (Some (JObject (execute_payload code language version kw))) = Response r)
    (Hst : (status_code r < 400 \/ 600 <= status_code r)%Z)
    (Hc : content r = EmptyString) :
  (execute_code c h code language version kw).1 = Ok ExecutionResult_default.
Proof.
  unfold execute_code.
  pose proof (make_request_transport c h "POST" "/execute" (kw_headers kw)
    (Some (JObject (execute_payload code language version kw))) (Response r) Ht) as E.
  destruct (make_request c h "POST" "/execute" (kw_headers kw) _) as [res0 h1].
  simpl in *. subst res0. rewrite classify_below_400 by done. rewrite Hc. reflexivity.
Qed.

End Client.

(** ** Witnesses and counterexamples on concrete inputs *)

Lemma make_request_sends_merged_headers_witness :
  demo_heap !! session_headers demo_client = Some demo_defaults
  /\ ci_wf str_lower demo_defaults
  /\ exists sent h',
    make_request str_lower loads_fixture decode_err_fixture repr_fixture
      (answer resp_runtimes) demo_client demo_heap "GET" "/runtimes" demo_call_headers None =
      (classify loads_fixture decode_err_fixture repr_fixture "/runtimes"
         (answer resp_runtimes "GET" (base_url demo_client +:+ "/" +:+ lstrip_slash "/runtimes")
            (timeout demo_client) sent None),
       h')
    /\ forall k, ci_get str_lower k sent =
       match ci_last str_lower k (default [] demo_call_headers) with
       | Some v => Some v
       | None => ci_get str_lower k demo_defaults
       end.
Proof.
  split; [reflexivity|].
  split; [unfold ci_wf; apply (proj1 (bool_decide_eq_true _)); vm_compute; reflexivity|].
  apply (make_request_sends_merged_headers str_lower loads_fixture decode_err_fixture
           repr_fixture (answer resp_runtimes) demo_client demo_heap "GET" "/runtimes"
           demo_call_headers None demo_defaults).
  - reflexivity.
  - unfold ci_wf. apply (proj1 (bool_decide_eq_true _)). vm_compute. reflexivity.
Defined.

Lemma make_request_keeps_session_headers_witness :
  demo_heap !! session_headers demo_client = Some demo_defaults
  /\ (make_request str_lower loads_fixture decode_err_fixture repr_fixture
        (answer resp_runtimes) demo_client demo_heap "GET" "/runtimes"
        demo_call_headers None).2 !! session_headers demo_client = Some demo_defaults.
Proof.
  split; [reflexivity|].
  apply (make_request_keeps_session_headers str_lower loads_fixture decode_err_fixture
           repr_fixture (answer resp_runtimes) demo_client demo_heap "GET" "/runtimes"
           demo_call_headers None demo_defaults).
  reflexivity.
Defined.

Lemma classify_404_undecodable_body_witness :
  status_code resp_404_html = 404%Z /\ loads_fixture (content resp_404_html) = None
  /\ classify loads_fixture decode_err_fixture repr_fixture "/packages" (Response resp_404_html) =
     Err (CodeExecutionError ("API request failed: " +:+ decode_err_fixture (content resp_404_html))).
Proof.
  split; [reflexivity|]. split; [reflexivity|].
  apply classify_404_undecodable_body; reflexivity.
Defined.

Lemma classify_error_status_undecodable_body_witness :
  (400 <= status_code resp_500_html < 600)%Z /\ status_code resp_500_html <> 404%Z
  /\ loads_fixture (content resp_500_html) = None
  /\ exists d, http_error_msg resp_500_html = Some d /\ d <> EmptyString /\
       classify loads_fixture decode_err_fixture repr_fixture "/execute" (Response resp_500_html) =
       Err (CodeExecutionError ("API request failed: " +:+ d)).
Proof.
  split; [simpl; lia|]. split; [simpl; lia|]. split; [reflexivity|].
  apply classify_error_status_undecodable_body.
  - simpl. lia.
  - simpl. lia.
  - simpl. lia.
  - reflexivity.
Defined.

(** C5 fails for a final 3xx answer: [raise_for_status] raises only for 4xx
    and 5xx, so a 300 with an empty (non-JSON) body returns [{}]. *)
Lemma classify_300_empty_body_returns :
  loads_fixture (content resp_300_empty) = None
  /\ classify loads_fixture decode_err_fixture repr_fixture "/runtimes" (Response resp_300_empty) =
     Ok (JObject []).
Proof. split; reflexivity. Qed.

Lemma parse_result_stages_witness :
  parse_result execute_only_response = Ok execute_only_result
  /\ (~ stage_present execute_only_response "install" ->
        install_output execute_only_result = JNull /\ install_error execute_only_result = JNull)
  /\ (~ stage_present execute_only_response "execute" ->
        execute_output execute_only_result = JNull /\ execute_error execute_only_result = JNull)
  /\ (forall l sl st, execute_only_response = JObject l ->
        dict_get "stages" l = Some (JObject sl) -> dict_get "install" sl = Some st ->
        py_get st "stdout" JNull = Ok (install_output execute_only_result)
        /\ py_get st "stderr" JNull = Ok (install_error execute_only_result))
  /\ (forall l sl st, execute_only_response = JObject l ->
        dict_get "stages" l = Some (JObject sl) -> dict_get "execute" sl = Some st ->
        py_get st "stdout" JNull = Ok (execute_output execute_only_result)
        /\ py_get st "stderr" JNull = Ok (execute_error execute_only_result)).
Proof.
  split; [reflexivity|].
  apply parse_result_stages. reflexivity.
Defined.

Lemma list_runtimes_all_or_nothing_witness :
  make_request str_lower loads_fixture decode_err_fixture repr_fixture
    (answer resp_runtimes) demo_client demo_heap "GET" "/runtimes" None None =
    (Ok runtimes_json, demo_heap)
  /\ (forall rs, (list_runtimes str_lower loads_fixture decode_err_fixture repr_fixture
                    (answer resp_runtimes) demo_client demo_heap None).1 = Ok rs ->
        (exists es, runtimes_json = JArray es
           /\ Forall2 (fun e r => runtime_of_entry e = Ok r) es rs)
        \/ (rs = [] /\ (runtimes_json = JObject [] \/ runtimes_json = JString EmptyString)))
  /\ (forall es e err, runtimes_json = JArray es -> In e es -> runtime_of_entry e = Err err ->
        exists err', (list_runtimes str_lower loads_fixture decode_err_fixture repr_fixture
                        (answer resp_runtimes) demo_client demo_heap None).1 = Err err').
Proof.
  split; [reflexivity|].
  apply (list_runtimes_all_or_nothing _ _ _ _ _ _ _ _ _ demo_heap). reflexivity.
Defined.

Lemma runtime_of_entry_defaults_witness :
  (forall k, In k (dict_keys python_entry) -> k = "language" \/ k = "version")
  /\ dict_get "language" python_entry = Some (JString "python")
  /\ dict_get "version" python_entry = Some (JString "3.11.0")
  /\ runtime_of_entry (JObject python_entry) =
     Ok {| language := JString "python"; version := JString "3.11.0";
           runtime := JNull; aliases := JArray [] |}
  /\ (list_runtimes str_lower (loads_const homepage_body) decode_err_fixture repr_fixture
        (answer resp_runtimes) demo_client demo_heap None).1 = Err TypeError.
Proof.
  assert (Hk : forall k, In k (dict_keys python_entry) -> k = "language" \/ k = "version").
  { simpl. intros k [<-|[<-|[]]]; auto. }
  assert (Hl : dict_get "language" python_entry = Some (JString "python")) by reflexivity.
  assert (Hv : dict_get "version" python_entry = Some (JString "3.11.0")) by reflexivity.
  destruct (runtime_of_entry_defaults str_lower (loads_const homepage_body) decode_err_fixture
              repr_fixture (answer resp_runtimes) python_entry _ _ Hk Hl Hv) as [H1 H2].
  split; [exact Hk|]. split; [exact Hl|]. split; [exact Hv|]. split; [exact H1|].
  apply (H2 demo_client demo_heap None [JObject homepage_entry] demo_heap homepage_entry
           "homepage").
  - vm_compute. reflexivity.
  - by left.
  - simpl. tauto.
  - simpl. intros H. repeat (destruct H as [H|H]; [discriminate|]). exact H.
Defined.

(** C10 fails for an entry with a member besides [language] and [version]:
    [Runtime] rejects the unexpected keyword and the whole call fails. *)
Lemma list_runtimes_extra_member_fails :
  let entry := [("language", JString "python"); ("version", JString "3.11.0");
                ("homepage", JString "https://www.python.org")] in
  dict_get "runtime" entry = None /\ dict_get "aliases" entry = None
  /\ runtimes_of_response (JArray [JObject entry]) = Err TypeError.
Proof. simpl. split; [reflexivity|]. split; reflexivity. Qed.

(** ** Witnesses of the further properties *)

Lemma client_websocket_url_witness :
  ~ In ":"%char (list_ascii_of_string "https") /\
  websocket_url (client_init str_lower "python-requests/2.31.0" "gzip, deflate" ∅
    ("https" +:+ "://" +:+ "example.org/api/v2/") 30 None).1
  = Some "ws://example.org/api/v2/connect".
Proof.
  assert (Hs : ~ In ":"%char (list_ascii_of_string "https")).
  { simpl. intros H. repeat (destruct H as [H|H]; [discriminate|]). exact H. }
  split; [exact Hs|].
  rewrite (client_websocket_url str_lower _ _ _ _ _ _ _ Hs). reflexivity.
Defined.

Lemma classify_package_errors_witness :
  loads_fixture (content resp_404_object) = Some (JObject []) /\
  classify loads_fixture decode_err_fixture repr_fixture "/process/42" (Response resp_404_object)
  = Err (PackageNotFoundError (JString "Package not found")).
Proof.
  assert (Hj : loads_fixture (content resp_404_object) = Some (JObject [])) by reflexivity.
  split; [exact Hj|].
  exact (proj1 (classify_package_errors loads_fixture decode_err_fixture repr_fixture
                  "/process/42" resp_404_object [] Hj) eq_refl).
Defined.

Lemma classify_http_error_object_witness :
  (400 <= status_code resp_500_object < 600)%Z /\ status_code resp_500_object <> 404%Z
  /\ ~ (status_code resp_500_object = 409%Z /\ "/execute" = "packages")
  /\ loads_fixture (content resp_500_object) = Some (JObject [])
  /\ exists d, http_error_msg resp_500_object = Some d /\
     classify loads_fixture decode_err_fixture repr_fixture "/execute" (Response resp_500_object)
     = Err (CodeExecutionError ("API request failed: " +:+ py_str repr_fixture (JString d))).
Proof.
  assert (H1 : (400 <= status_code resp_500_object < 600)%Z) by (simpl; lia).
  assert (H2 : status_code resp_500_object <> 404%Z) by (simpl; lia).
  assert (H3 : ~ (status_code resp_500_object = 409%Z /\ "/execute" = "packages"))
    by (intros [E _]; discriminate).
  assert (H4 : loads_fixture (content resp_500_object) = Some (JObject [])) by reflexivity.
  split; [exact H1|]. split; [exact H2|]. split; [exact H3|]. split; [exact H4|].
  exact (classify_http_error_object loads_fixture decode_err_fixture repr_fixture
           "/execute" resp_500_object [] H1 H2 H3 H4).
Defined.

Lemma classify_error_non_object_witness :
  (400 <= status_code resp_500_object < 600)%Z
  /\ loads_const (JArray []) (content resp_500_object) = Some (JArray [])
  /\ classify (loads_const (JArray [])) decode_err_fixture repr_fixture "/execute"
       (Response resp_500_object) = Err AttributeError.
Proof.
  assert (H1 : (400 <= status_code resp_500_object < 600)%Z) by (simpl; lia).
  assert (H2 : loads_const (JArray []) (content resp_500_object) = Some (JArray []))
    by reflexivity.
  split; [exact H1|]. split; [exact H2|].
  apply (classify_error_non_object (loads_const (JArray [])) decode_err_fixture repr_fixture
           "/execute" resp_500_object (JArray []) H1 H2).
  intros l. discriminate.
Defined.

Lemma classify_success_witness :
  (status_code resp_300_empty < 400 \/ 600 <= status_code resp_300_empty)%Z
  /\ classify loads_fixture decode_err_fixture repr_fixture "/runtimes" (Response resp_300_empty)
     = Ok (JObject []).
Proof.
  assert (H : (status_code resp_300_empty < 400 \/ 600 <= status_code resp_300_empty)%Z)
    by (left; simpl; lia).
  split; [exact H|].
  rewrite (classify_success loads_fixture decode_err_fixture repr_fixture "/runtimes"
             resp_300_empty H).
  reflexivity.
Defined.

Lemma terminate_process_not_found_witness :
  (forall sent, answer resp_404_object "DELETE" (base_url demo_client +:+ "/process/" +:+ "42")
                  (timeout demo_client) sent None = Response resp_404_object)
  /\ status_code resp_404_object = 404%Z
  /\ loads_fixture (content resp_404_object) = Some (JObject [])
  /\ (terminate_process str_lower loads_fixture decode_err_fixture repr_fixture
        (answer resp_404_object) demo_client demo_heap "42" None).1
     = Err (PackageNotFoundError (JString "Package not found")).
Proof.
  assert (H1 : forall sent, answer resp_404_object "DELETE"
                 (base_url demo_client +:+ "/process/" +:+ "42")
                 (timeout demo_client) sent None = Response resp_404_object)
    by (intros; reflexivity).
  assert (H2 : status_code resp_404_object = 404%Z) by reflexivity.
  assert (H3 : loads_fixture (content resp_404_object) = Some (JObject [])) by reflexivity.
  split; [exact H1|]. split; [exact H2|]. split; [exact H3|].
  exact (terminate_process_not_found str_lower loads_fixture decode_err_fixture repr_fixture
           (answer resp_404_object) demo_client demo_heap "42" None resp_404_object []
           H1 H2 H3).
Defined.

Lemma uninstall_package_ok_witness :
  (forall sent, answer resp_204_empty "DELETE" (base_url demo_client +:+ "/packages")
     (timeout demo_client) sent
     (Some (JObject [("language", JString "python"); ("version", JString "3.11.0")]))
     = Response resp_204_empty)
  /\ ((uninstall_package str_lower loads_fixture decode_err_fixture repr_fixture
         (answer resp_204_empty) demo_client demo_heap "python" "3.11.0" None).1 = Ok tt
      <-> exists r, Response resp_204_empty = Response r
          /\ (status_code r < 400 \/ 600 <= status_code r)%Z
          /\ (content r = EmptyString \/ exists j, loads_fixture (content r) = Some j))
  /\ (uninstall_package str_lower loads_fixture decode_err_fixture repr_fixture
        (answer resp_204_empty) demo_client demo_heap "python" "3.11.0" None).1 = Ok tt.
Proof.
  assert (H1 : forall sent, answer resp_204_empty "DELETE" (base_url demo_client +:+ "/packages")
     (timeout demo_client) sent
     (Some (JObject [("language", JString "python"); ("version", JString "3.11.0")]))
     = Response resp_204_empty) by (intros; reflexivity).
  pose proof (uninstall_package_ok str_lower loads_fixture decode_err_fixture repr_fixture
    (answer resp_204_empty) demo_client demo_heap "python" "3.11.0" None
    (Response resp_204_empty) H1) as E.
  split; [exact H1|]. split; [exact E|].
  apply E. exists resp_204_empty. split; [reflexivity|]. split; [left; simpl; lia|].
  left. reflexivity.
Defined.

Lemma list_packages_shape_witness :
  (list_packages str_lower (loads_const packages_json) decode_err_fixture repr_fixture
     (answer resp_packages) demo_client demo_heap None).1
  = Ok [{| pkg_language := JString "python"; language_version := JString "3.11.0";
           installed := JBool true |}]
  /\ exists response,
    (make_request str_lower (loads_const packages_json) decode_err_fixture repr_fixture
       (answer resp_packages) demo_client demo_heap "GET" "/packages" None None).1 = Ok response
    /\ ((exists es, response = JArray es /\
           Forall2 (fun e p => package_of_entry e = Ok p) es
             [{| pkg_language := JString "python"; language_version := JString "3.11.0";
                 installed := JBool true |}])
        \/ ([{| pkg_language := JString "python"; language_version := JString "3.11.0";
                installed := JBool true |}] = [] /\
            (response = JObject [] \/ response = JString EmptyString))).
Proof.
  assert (Hok : (list_packages str_lower (loads_const packages_json) decode_err_fixture
     repr_fixture (answer resp_packages) demo_client demo_heap None).1
     = Ok [{| pkg_language := JString "python"; language_version := JString "3.11.0";
              installed := JBool true |}]) by (vm_compute; reflexivity).
  split; [exact Hok|].
  exact (list_packages_shape str_lower (loads_const packages_json) decode_err_fixture
           repr_fixture (answer resp_packages) demo_client demo_heap None _ Hok).
Defined.

Lemma parse_result_other_keys_witness :
  dict_get "stages" (("language", JString "python") :: python_entry ++ [("stages", JObject [])])%list
  = dict_get "stages" [("stages", JObject [])]
  /\ dict_get "webAppUrl" (("language", JString "python") :: python_entry ++ [("stages", JObject [])])%list
  = dict_get "webAppUrl" [("stages", JObject [])]
  /\ parse_result (JObject (("language", JString "python") :: python_entry ++ [("stages", JObject [])])%list)
  = parse_result (JObject [("stages", JObject [])]).
Proof.
  assert (H1 : dict_get "stages" (("language", JString "python") :: python_entry
                 ++ [("stages", JObject [])])%list = dict_get "stages" [("stages", JObject [])])
    by reflexivity.
  assert (H2 : dict_get "webAppUrl" (("language", JString "python") :: python_entry
                 ++ [("stages", JObject [])])%list = dict_get "webAppUrl" [("stages", JObject [])])
    by reflexivity.
  split; [exact H1|]. split; [exact H2|].
  exact (parse_result_other_keys _ _ H1 H2).
Defined.

Lemma parse_result_web_app_url_witness :
  parse_result (JObject [("webAppUrl", JString "http://localhost:8501")])
  = Ok {| install_output := JNull; install_error := JNull; execute_output := JNull;
          execute_error := JNull; web_app_url := JString "http://localhost:8501" |}
  /\ web_app_url {| install_output := JNull; install_error := JNull; execute_output := JNull;
                    execute_error := JNull; web_app_url := JString "http://localhost:8501" |}
     = default JNull (dict_get "webAppUrl" [("webAppUrl", JString "http://localhost:8501")]).
Proof.
  assert (H : parse_result (JObject [("webAppUrl", JString "http://localhost:8501")])
    = Ok {| install_output := JNull; install_error := JNull; execute_output := JNull;
            execute_error := JNull; web_app_url := JString "http://localhost:8501" |})
    by reflexivity.
  split; [exact H|]. exact (parse_result_web_app_url _ _ H).
Defined.

Lemma parse_result_stages_scalar_witness :
  dict_get "stages" [("stages", JNum 0)] = Some (JNum 0)
  /\ parse_result (JObject [("stages", JNum 0)]) = Err TypeError.
Proof.
  assert (H : dict_get "stages" [("stages", JNum 0)] = Some (JNum 0)) by reflexivity.
  split; [exact H|].
  apply (parse_result_stages_scalar _ _ H). right; right. by exists 0%Z.
Defined.

Lemma parse_result_stage_not_object_witness :
  dict_get "stages" [("stages", JObject [("execute", JString "done")])]
    = Some (JObject [("execute", JString "done")])
  /\ dict_get "execute" [("execute", JString "done")] = Some (JString "done")
  /\ parse_result (JObject [("stages", JObject [("execute", JString "done")])]) = Err AttributeError.
Proof.
  assert (H1 : dict_get "stages" [("stages", JObject [("execute", JString "done")])]
                 = Some (JObject [("execute", JString "done")])) by reflexivity.
  assert (H2 : dict_get "execute" [("execute", JString "done")] = Some (JString "done"))
    by reflexivity.
  split; [exact H1|]. split; [exact H2|].
  apply (parse_result_stage_not_object _ _ "execute" _ H1 (or_intror eq_refl) H2).
  intros m. discriminate.
Defined.

Lemma execute_code_empty_body_witness :
  (forall sent, answer resp_204_empty "POST" (base_url demo_client +:+ "/execute")
     (timeout demo_client) sent
     (Some (JObject (execute_payload "print(1)" "python" "3.11.0" no_kwargs)))
     = Response resp_204_empty)
  /\ (status_code resp_204_empty < 400 \/ 600 <= status_code resp_204_empty)%Z
  /\ content resp_204_empty = EmptyString
  /\ (execute_code str_lower loads_fixture decode_err_fixture repr_fixture
        (answer resp_204_empty) demo_client demo_heap "print(1)" "python" "3.11.0" no_kwargs).1
     = Ok ExecutionResult_default.
Proof.
  assert (H1 : forall sent, answer resp_204_empty "POST" (base_url demo_client +:+ "/execute")
     (timeout demo_client) sent
     (Some (JObject (execute_payload "print(1)" "python" "3.11.0" no_kwargs)))
     = Response resp_204_empty) by (intros; reflexivity).
  assert (H2 : (status_code resp_204_empty < 400 \/ 600 <= status_code resp_204_empty)%Z)
    by (left; simpl; lia).
  assert (H3 : content resp_204_empty = EmptyString) by reflexivity.
  split; [exact H1|]. split; [exact H2|]. split; [exact H3|].
  exact (execute_code_empty_body str_lower loads_fixture decode_err_fixture repr_fixture
           (answer resp_204_empty) demo_client demo_heap "print(1)" "python" "3.11.0"
           no_kwargs resp_204_empty H1 H2 H3).
Defined.
